(** * bertopic-app: the Streamlit script [streamlit_app.py]

    A shallow embedding of the script: Python strings are sequences of
    Unicode code points, the page is a trace of rendered elements and
    library calls, and the third-party topic-modelling library is an
    interface whose calls either return or raise. *)

From Stdlib Require Import List ZArith NArith Bool Lia String Ascii DecimalString.
Import ListNotations.

Local Open Scope Z_scope.

(** ** Python [str] *)

(** A Python [str] is a sequence of code points. *)
Definition char := N.
Definition pystr := list char.

(** An ASCII literal of the source, as a [pystr]. *)
Definition str (s : string) : pystr :=
  List.map N_of_ascii (list_ascii_of_string s).

Arguments str : simpl never.

(** [str(n)] for a non-negative [int]. *)
Definition str_of_nat (n : nat) : pystr :=
  str (NilEmpty.string_of_uint (Nat.to_uint n)).

(** The line feed, the separator of [user_input.split("\n")]. *)
Definition newline : char := 10%N.

(** [str.isspace] on one code point: the characters CPython's Unicode
    database classes as whitespace. *)
Definition isspace (c : char) : bool :=
  ((0x09 <=? c) && (c <=? 0x0D))%N
  || ((0x1C <=? c) && (c <=? 0x20))%N
  || (c =? 0x85)%N
  || (c =? 0xA0)%N
  || (c =? 0x1680)%N
  || ((0x2000 <=? c) && (c <=? 0x200A))%N
  || (c =? 0x2028)%N
  || (c =? 0x2029)%N
  || (c =? 0x202F)%N
  || (c =? 0x205F)%N
  || (c =? 0x3000)%N.

(** Truth value of a [str]: only the empty string is false. *)
Definition truthy (s : pystr) : bool :=
  match s with
  | [] => false
  | _ :: _ => true
  end.

(** Remove the longest prefix of characters satisfying [p]. *)
Fixpoint dropwhile (p : char -> bool) (s : pystr) : pystr :=
  match s with
  | [] => []
  | c :: rest => if p c then dropwhile p rest else s
  end.

Definition lstrip (s : pystr) : pystr := dropwhile isspace s.
Definition rstrip (s : pystr) : pystr := rev (dropwhile isspace (rev s)).

(** [s.strip()]: whitespace removed at both ends. *)
Definition strip (s : pystr) : pystr := rstrip (lstrip s).

(** [s.split(sep)] for a one-character separator: always at least one
    piece, the pieces between consecutive separators included when empty. *)
Fixpoint split (sep : char) (s : pystr) : list pystr :=
  match s with
  | [] => [[]]
  | c :: rest =>
      if (c =? sep)%N then [] :: split sep rest
      else match split sep rest with
           | [] => [[c]]
           | piece :: pieces => (c :: piece) :: pieces
           end
  end.

(** [sep.join(pieces)], the inverse of [split]. *)
Fixpoint join (sep : char) (pieces : list pystr) : pystr :=
  match pieces with
  | [] => []
  | [piece] => piece
  | piece :: more => piece ++ sep :: join sep more
  end.

(** The comprehension [[doc.strip() for doc in documents if doc.strip()]]
    of lines 95 and 119. *)
Fixpoint strip_nonempty (documents : list pystr) : list pystr :=
  match documents with
  | [] => []
  | doc :: rest =>
      if truthy (strip doc) then strip doc :: strip_nonempty rest
      else strip_nonempty rest
  end.

(** ** The Document Set as the specification words it *)

(** A string is blank when every character of it is whitespace. *)
Definition blank (s : pystr) : bool := forallb isspace s.

(** ** Sidebar configuration (lines 13-79) *)

(** The options of the two string select boxes. *)
Inductive Metric := cosine | euclidean | manhattan.
Inductive Language := english | multilingual.

(** The values the sidebar widgets return on one rerun.  [min_dist] is the
    slider position in steps of 0.01; the script only passes it on. *)
Record Config := {
  n_neighbors_max : Z;
  n_components : Z;
  min_dist : Z;
  metric : Metric;
  min_topic_size : Z;
  language : Language;
  top_n_topics : Z;
  show_all_viz : bool
}.

(** The domains the widgets enforce ([min_value], [max_value], options). *)
Definition widget_domains (cfg : Config) : Prop :=
  2 <= n_neighbors_max cfg <= 15 /\
  (n_components cfg = 2 \/ n_components cfg = 3) /\
  0 <= min_dist cfg <= 99 /\
  2 <= min_topic_size cfg <= 10 /\
  5 <= top_n_topics cfg <= 20.

(** The defaults ([value=], [index=0]). *)
Definition default_config : Config :=
  {| n_neighbors_max := 5; n_components := 2; min_dist := 0;
     metric := cosine; min_topic_size := 2; language := english;
     top_n_topics := 10; show_all_viz := true |}.

(** ** The objects handed to the libraries (lines 136-150) *)

(** Keyword arguments of [UMAP(...)]. *)
Record UMAP := {
  n_neighbors : Z;
  umap_n_components : Z;
  umap_min_dist : Z;
  umap_metric : Metric;
  random_state : Z;
  init : pystr
}.

(** Keyword arguments of [BERTopic(...)]. *)
Record BERTopic := {
  umap_model : UMAP;
  verbose : bool;
  bertopic_min_topic_size : Z;
  bertopic_language : Language
}.

(** [len(documents)] as a Python [int]. *)
Definition len {A : Type} (l : list A) : Z := Z.of_nat (List.length l).

(** Line 136. *)
Definition effective_n_neighbors (n_neighbors_max : Z) (documents : list pystr) : Z :=
  Z.max 2 (Z.min n_neighbors_max (len documents - 2)).

(** Lines 136-144. *)
Definition make_umap_model (cfg : Config) (documents : list pystr) : UMAP :=
  let n_neighbors := effective_n_neighbors (n_neighbors_max cfg) documents in
  {| n_neighbors := n_neighbors;
     umap_n_components := n_components cfg;
     umap_min_dist := min_dist cfg;
     umap_metric := metric cfg;
     random_state := 42;
     init := str "random" |}.

(** Lines 145-150. *)
Definition make_topic_model (cfg : Config) (documents : list pystr) : BERTopic :=
  {| umap_model := make_umap_model cfg documents;
     verbose := false;
     bertopic_min_topic_size := min_topic_size cfg;
     bertopic_language := language cfg |}.

(** The neighbour count as the specification words it: an ordinary clamp of
    the configured maximum into [2, document count - 2], except that the
    lower bound 2 is forced when that interval is empty. *)
Definition clamp (x lo hi : Z) : Z :=
  if x <? lo then lo else if hi <? x then hi else x.

Definition spec_effective_neighbors (max_neighbor_count document_count : Z) : Z :=
  if document_count - 2 <? 2 then 2
  else clamp max_neighbor_count 2 (document_count - 2).

(** ** Exceptions and the libraries' interface *)

(** An exception caught by [except Exception as e], as the text [{e}]
    renders in an f-string. *)
Definition Exception := pystr.

(** The four chart generators of the fitted model. *)
Inductive ChartKind := Frequency | Hierarchy | Heatmap | TopicWords.

(** The third-party calls of the script.  Each one either returns or raises.
    [fit_transform] returns the fitted model (the script drops [topics] and
    [probs]); [get_topic_info] returns the summary table of a fitted model,
    of which the script uses only the number of rows. *)
Record Library (Model Figure TopicInfo : Type) := {
  fit_transform : BERTopic -> list pystr -> Exception + Model;
  get_topic_info : Model -> TopicInfo;
  topic_info_rows : TopicInfo -> nat;
  visualize_barchart : Model -> Z -> Exception + Figure;
  visualize_hierarchy : Model -> Exception + Figure;
  visualize_heatmap : Model -> Exception + Figure;
  visualize_topics : Model -> Exception + Figure
}.

Arguments fit_transform {Model Figure TopicInfo}.
Arguments get_topic_info {Model Figure TopicInfo}.
Arguments topic_info_rows {Model Figure TopicInfo}.
Arguments visualize_barchart {Model Figure TopicInfo}.
Arguments visualize_hierarchy {Model Figure TopicInfo}.
Arguments visualize_heatmap {Model Figure TopicInfo}.
Arguments visualize_topics {Model Figure TopicInfo}.

(** ** The uploaded table (lines 103-121) *)

(** A column of the parsed CSV: one cell per row, [None] where the value is
    missing (NaN). *)
Definition Series (Value : Type) := list (option Value).

(** The parsed CSV: its columns in header order, each with its name. *)
Definition DataFrame (Value : Type) := list (pystr * Series Value).

Definition pystr_eqb (a b : pystr) : bool :=
  if list_eq_dec N.eq_dec a b then true else false.

(** [df.columns]. *)
Definition columns {Value} (df : DataFrame Value) : list pystr :=
  List.map fst df.

(** [df[column_name]]: the column of that name; [KeyError(column_name)]
    when absent.  Its text is kept as the name between single quotes, which
    is Python's [repr] of a name holding no quote, backslash or unprintable
    character; nothing below depends on that text. *)
Fixpoint getitem {Value} (df : DataFrame Value) (column_name : pystr)
  : Exception + Series Value :=
  match df with
  | [] => inl (str "'" ++ column_name ++ str "'")
  | (name, column) :: more =>
      if pystr_eqb name column_name then inr column else getitem more column_name
  end.

(** [df.head()]: the first five rows. *)
Definition head {Value} (df : DataFrame Value) : DataFrame Value :=
  List.map (fun nc => (fst nc, firstn 5 (snd nc))) df.

(** [series.dropna()]. *)
Fixpoint dropna {Value} (s : Series Value) : list Value :=
  match s with
  | [] => []
  | None :: rest => dropna rest
  | Some v :: rest => v :: dropna rest
  end.

(** [series.astype(str).tolist()], with [to_str] the text of one value. *)
Definition astype_str {Value} (to_str : Value -> pystr) (values : list Value)
  : list pystr :=
  List.map to_str values.

(** ** The page as a trace *)

Section Script.

Variables Value Model Figure TopicInfo : Type.

(** What [st.dataframe] is given: the preview of the upload or the topic
    summary table. *)
Inductive Frame :=
| CsvPreview (df : DataFrame Value)
| TopicSummary (topic_info : TopicInfo).

(** Streamlit elements of the main page, in the order they are issued.
    Layout containers ([st.tabs], [st.columns]) and the sidebar's own
    headings are not elements of this trace. *)
Inductive Element :=
| title (body : pystr)
| write (body : pystr)
| header (body : pystr)
| subheader (body : pystr)
| markdown (body : pystr)
| text_area (label : pystr)
| file_uploader (label : pystr)
| selectbox (label : pystr) (options : list pystr)
| button (label : pystr)
| dataframe (data : Frame)
| plotly_chart (fig : Figure)
| success (body : pystr)
| info (body : pystr)
| warning (body : pystr)
| error (body : pystr).

(** Calls into the topic-modelling library, with their arguments. *)
Inductive LibraryCall :=
| call_fit_transform (topic_model : BERTopic) (documents : list pystr)
| call_get_topic_info
| call_visualize_barchart (top_n_topics : Z)
| call_visualize_hierarchy
| call_visualize_heatmap
| call_visualize_topics.

Inductive Event :=
| st (e : Element)
| lib (c : LibraryCall).

(** How a piece of the script ends: it falls through with a value, it is
    halted by [st.stop()], or an exception leaves it. *)
Inductive Outcome (A : Type) :=
| Returned (a : A)
| Stopped
| Raised (e : Exception).

Arguments Returned {A}.
Arguments Stopped {A}.
Arguments Raised {A}.

(** A piece of the script: the events it issued and how it ended. *)
Definition Run (A : Type) : Type := list Event * Outcome A.

Definition trace {A} (r : Run A) : list Event := fst r.
Definition outcome {A} (r : Run A) : Outcome A := snd r.

Definition ret {A} (a : A) : Run A := ([], Returned a).

Definition bind {A B} (r : Run A) (k : A -> Run B) : Run B :=
  match r with
  | (events, Returned a) => (events ++ trace (k a), outcome (k a))
  | (events, Stopped) => (events, Stopped)
  | (events, Raised e) => (events, Raised e)
  end.

(** Issue one Streamlit element. *)
Definition show (e : Element) : Run unit := ([st e], Returned tt).

(** [st.stop()]. *)
Definition stop {A} : Run A := ([], Stopped).

(** A library call: logged, then its result or its exception. *)
Definition invoke {A} (c : LibraryCall) (result : Exception + A) : Run A :=
  ([lib c], match result with
            | inl e => Raised e
            | inr a => Returned a
            end).

(** An expression outside the library that can raise. *)
Definition eval {A} (result : Exception + A) : Run A :=
  ([], match result with
       | inl e => Raised e
       | inr a => Returned a
       end).

(** [try: body except Exception as e: handler].  [st.stop()] is not an
    [Exception] and passes through. *)
Definition try_except {A} (body : Run A) (handler : Exception -> Run A) : Run A :=
  match body with
  | (events, Raised e) => (events ++ trace (handler e), outcome (handler e))
  | (events, Returned a) => (events, Returned a)
  | (events, Stopped) => (events, Stopped)
  end.

End Script.

Arguments Returned {A}.
Arguments Stopped {A}.
Arguments Raised {A}.
Arguments CsvPreview {Value TopicInfo}.
Arguments TopicSummary {Value TopicInfo}.
Arguments title {Value Figure TopicInfo}.
Arguments write {Value Figure TopicInfo}.
Arguments header {Value Figure TopicInfo}.
Arguments subheader {Value Figure TopicInfo}.
Arguments markdown {Value Figure TopicInfo}.
Arguments text_area {Value Figure TopicInfo}.
Arguments file_uploader {Value Figure TopicInfo}.
Arguments selectbox {Value Figure TopicInfo}.
Arguments button {Value Figure TopicInfo}.
Arguments dataframe {Value Figure TopicInfo}.
Arguments plotly_chart {Value Figure TopicInfo}.
Arguments success {Value Figure TopicInfo}.
Arguments info {Value Figure TopicInfo}.
Arguments warning {Value Figure TopicInfo}.
Arguments error {Value Figure TopicInfo}.
Arguments st {Value Figure TopicInfo}.
Arguments lib {Value Figure TopicInfo}.
Arguments trace {Value Figure TopicInfo A}.
Arguments outcome {Value Figure TopicInfo A}.
Arguments ret {Value Figure TopicInfo A}.
Arguments bind {Value Figure TopicInfo A B}.
Arguments show {Value Figure TopicInfo}.
Arguments stop {Value Figure TopicInfo A}.
Arguments invoke {Value Figure TopicInfo A}.
Arguments eval {Value Figure TopicInfo A}.
Arguments try_except {Value Figure TopicInfo A}.

Declare Scope run_scope.
Delimit Scope run_scope with run.
Notation "x <- r ;; k" := (bind r (fun x => k))
  (at level 61, r at next level, right associativity) : run_scope.
Notation "r ;; k" := (bind r (fun _ => k))
  (at level 61, right associativity) : run_scope.

(** ** The script *)

Local Open Scope run_scope.

(** What the upload tab reads on one rerun: the table [pd.read_csv] parsed
    and the value the column select box returned.  A rerun in which
    [pd.read_csv] itself raises (line 105, an empty or undecodable file) has
    no input here: the runs below are those whose upload, if any, parsed. *)
Record Upload (Value : Type) := {
  df : DataFrame Value;
  column_name : option pystr
}.

Arguments df {Value}.
Arguments column_name {Value}.

(** What the main-page widgets return on one rerun. *)
Record Inputs (Value : Type) := {
  user_input : pystr;
  uploaded_file : option (Upload Value);
  analyze_button : bool
}.

Arguments user_input {Value}.
Arguments uploaded_file {Value}.
Arguments analyze_button {Value}.

(** The two module-level variables of lines 84-85. *)
Record Globals := {
  documents : option (list pystr);
  source : option pystr
}.

(** Truth value of [documents]: [None] and the empty list are false. *)
Definition truthy_documents (documents : option (list pystr)) : bool :=
  match documents with
  | Some (_ :: _) => true
  | _ => false
  end.

Section Main.

Variables Value Model Figure TopicInfo : Type.

(** The libraries behind the script and Python's [str(value)]. *)
Variable bertopic : Library Model Figure TopicInfo.
Variable to_str : Value -> pystr.

Local Abbreviation Run := (Run Value Figure TopicInfo).

(** Lines 88-96. *)
Definition tab1 (user_input : pystr) (g : Globals) : Run Globals :=
  show (header (str "Input Text")) ;;
  show (write (str "Enter your text data below. Each line will be treated as a separate document.")) ;;
  show (text_area (str "Input your text here (one document per line):")) ;;
  if truthy user_input then
    let documents := split newline user_input in
    let documents := strip_nonempty documents in
    ret {| documents := Some documents; source := Some (str "manual") |}
  else ret g.

(** Lines 99-121. *)
Definition tab2 (uploaded_file : option (Upload Value)) (g : Globals) : Run Globals :=
  show (header (str "Upload CSV File")) ;;
  show (file_uploader (str "Choose a CSV file")) ;;
  match uploaded_file with
  | Some upload =>
      let df := df upload in
      show (write (str "Preview of uploaded file:")) ;;
      show (dataframe (CsvPreview (head df))) ;;
      show (selectbox (str "Select the column containing free text:") (columns df)) ;;
      match column_name upload with
      | Some column_name =>
          if truthy column_name then
            column <- eval (getitem df column_name) ;;
            let documents := astype_str to_str (dropna column) in
            let documents := strip_nonempty documents in
            show (success (str "Loaded " ++ str_of_nat (List.length documents)
                           ++ str " documents from '" ++ column_name ++ str "'")) ;;
            ret {| documents := Some documents; source := Some (str "csv") |}
          else ret g
      | None => ret g
      end
  | None => ret g
  end.

(** Lines 84-121: both tabs, in page order. *)
Definition load_documents (inp : Inputs Value) : Run Globals :=
  g <- tab1 (user_input inp) {| documents := None; source := None |} ;;
  tab2 (uploaded_file inp) g.

(** Lines 131-211: the body of [if analyze_button]. *)
Definition analysis (cfg : Config) (documents : list pystr) : Run unit :=
  show (header (str "Step 1: Initialize BERTopic")) ;;
  show (write (str "Initializing the BERTopic model...")) ;;
  let topic_model := make_topic_model cfg documents in
  show (header (str "Step 2: Fit the Model")) ;;
  show (write (str "Fitting the BERTopic model to your data...")) ;;
  fitted <- try_except
              (invoke (call_fit_transform topic_model documents)
                      (fit_transform bertopic topic_model documents))
              (fun e => show (error (str "Error fitting model: " ++ e)) ;; stop) ;;
  show (header (str "Step 3: Extracted Topics")) ;;
  show (write (str "The following topics were extracted:")) ;;
  topic_info <- invoke call_get_topic_info (inr (get_topic_info bertopic fitted)) ;;
  show (dataframe (TopicSummary topic_info)) ;;
  show (header (str "Step 4: Visualizations")) ;;
  (if show_all_viz cfg then
     try_except
       (show (subheader (str "Topic Frequency")) ;;
        let n := Z.min (top_n_topics cfg)
                       (Z.of_nat (topic_info_rows bertopic topic_info) - 1) in
        fig <- invoke (call_visualize_barchart n)
                      (visualize_barchart bertopic fitted n) ;;
        show (plotly_chart fig))
       (fun e => show (warning (str "Could not generate topic frequency chart: " ++ e))) ;;
     try_except
       (show (subheader (str "Topic Hierarchy")) ;;
        fig_hierarchy <- invoke call_visualize_hierarchy
                                (visualize_hierarchy bertopic fitted) ;;
        show (plotly_chart fig_hierarchy))
       (fun e => show (warning (str "Could not generate hierarchy chart: " ++ e))) ;;
     try_except
       (show (subheader (str "Topic Similarity Heatmap")) ;;
        fig_heatmap <- invoke call_visualize_heatmap
                              (visualize_heatmap bertopic fitted) ;;
        show (plotly_chart fig_heatmap))
       (fun e => show (warning (str "Could not generate heatmap: " ++ e))) ;;
     try_except
       (show (subheader (str "Top Words per Topic")) ;;
        fig_words <- invoke call_visualize_topics
                            (visualize_topics bertopic fitted) ;;
        show (plotly_chart fig_words))
       (fun e => show (warning (str "Could not generate topic words chart: " ++ e)))
   else
     try_except
       (show (subheader (str "Topic Frequency")) ;;
        let n := Z.min (top_n_topics cfg)
                       (Z.of_nat (topic_info_rows bertopic topic_info) - 1) in
        fig <- invoke (call_visualize_barchart n)
                      (visualize_barchart bertopic fitted n) ;;
        show (plotly_chart fig))
       (fun e => show (warning (str "Could not generate topic frequency chart: " ++ e)))) ;;
  show (success (str "BERTopic analysis complete!")).

(** The prompt of lines 213-216, when [documents] is false. *)
Definition empty_input_prompt (g : Globals) : Run unit :=
  match source g with
  | None =>
      show (info (0x1F446%N :: str " Enter text manually or upload a CSV file to get started (minimum 3-5 documents recommended)."))
  | Some _ =>
      show (warning (str "Please enter at least one valid document (minimum 3-5 recommended for better results)."))
  end.

(** Lines 124-216: the analysis section, offered once documents are loaded. *)
Definition analysis_section (cfg : Config) (analyze_button : bool) (g : Globals)
  : Run unit :=
  match documents g with
  | Some ((_ :: _) as documents) =>
      show (markdown (str "---")) ;;
      show (button (str "Start Analysis")) ;;
      if analyze_button then analysis cfg documents else ret tt
  | _ => empty_input_prompt g
  end.

(** The whole script, one rerun. *)
Definition main (cfg : Config) (inp : Inputs Value) : Run unit :=
  show (title (str "BERTopic The App")) ;;
  show (write (str "This app demonstrates the use of BERTopic for topic modeling on free text data.")) ;;
  g <- load_documents inp ;;
  analysis_section cfg (analyze_button inp) g.

End Main.

Arguments tab1 {Value Figure TopicInfo}.
Arguments tab2 {Value Figure TopicInfo}.
Arguments load_documents {Value Figure TopicInfo}.
Arguments analysis {Value Model Figure TopicInfo}.
Arguments empty_input_prompt {Value Figure TopicInfo}.
Arguments analysis_section {Value Model Figure TopicInfo}.
Arguments main {Value Model Figure TopicInfo}.

(** ** Reading a trace *)

Section Observations.

Context {Value Figure TopicInfo : Type}.

Local Abbreviation Event := (Event Value Figure TopicInfo).

Definition is_error (ev : Event) : bool :=
  match ev with st (error _) => true | _ => false end.

Definition is_warning (ev : Event) : bool :=
  match ev with st (warning _) => true | _ => false end.

Definition is_prompt (ev : Event) : bool :=
  match ev with st (info _) | st (warning _) => true | _ => false end.

Definition is_button (ev : Event) : bool :=
  match ev with st (button _) => true | _ => false end.

Definition is_topic_summary (ev : Event) : bool :=
  match ev with st (dataframe (TopicSummary _)) => true | _ => false end.

Definition is_plotly_chart (ev : Event) : bool :=
  match ev with st (plotly_chart _) => true | _ => false end.

Definition is_library_call (ev : Event) : bool :=
  match ev with lib _ => true | _ => false end.

Definition is_fit_call (ev : Event) : bool :=
  match ev with lib (call_fit_transform _ _) => true | _ => false end.

Definition is_chart_call (ev : Event) : bool :=
  match ev with
  | lib (call_visualize_barchart _)
  | lib call_visualize_hierarchy
  | lib call_visualize_heatmap
  | lib call_visualize_topics => true
  | _ => false
  end.

Definition is_barchart_call (ev : Event) : bool :=
  match ev with lib (call_visualize_barchart _) => true | _ => false end.

(** How many events of a trace satisfy [p]. *)
Definition count (p : Event -> bool) (events : list Event) : nat :=
  List.length (filter p events).

(** The events of the two input tabs: none of them is a message, a
    button, a chart, a topic summary or a library call. *)
Definition is_input_stage (ev : Event) : bool :=
  match ev with
  | st (header _) | st (write _) | st (text_area _) | st (file_uploader _)
  | st (selectbox _ _) | st (dataframe (CsvPreview _)) | st (success _) => true
  | _ => false
  end.

End Observations.

(** The value of a piece of the script that fell through. *)
Definition returned {A} (o : Outcome A) : option A :=
  match o with
  | Returned a => Some a
  | _ => None
  end.

(** One chart generator of the fitted model, [top_n] being the argument the
    frequency chart takes. *)
Definition chart_result {Model Figure TopicInfo}
  (bertopic : Library Model Figure TopicInfo) (fitted : Model) (top_n : Z)
  (k : ChartKind) : Exception + Figure :=
  match k with
  | Frequency => visualize_barchart bertopic fitted top_n
  | Hierarchy => visualize_hierarchy bertopic fitted
  | Heatmap => visualize_heatmap bertopic fitted
  | TopicWords => visualize_topics bertopic fitted
  end.

(** The name each warning gives its chart (lines 177, 185, 193, 201). *)
Definition chart_name (k : ChartKind) : pystr :=
  match k with
  | Frequency => str "topic frequency chart"
  | Hierarchy => str "hierarchy chart"
  | Heatmap => str "heatmap"
  | TopicWords => str "topic words chart"
  end.

Definition chart_warning (k : ChartKind) (e : Exception) : pystr :=
  str "Could not generate " ++ chart_name k ++ str ": " ++ e.

Definition ChartKind_eqb (a b : ChartKind) : bool :=
  match a, b with
  | Frequency, Frequency | Hierarchy, Hierarchy
  | Heatmap, Heatmap | TopicWords, TopicWords => true
  | _, _ => false
  end.

(** ** A scripted library, for running the script on concrete inputs *)

(** The fit raises [fit_error] when given, else returns a model whose summary
    has [rows] rows; the chart [failing] raises [chart_error], the others
    return a figure tagged with their kind. *)
Definition scripted_chart (failing : option ChartKind) (chart_error : Exception)
  (k : ChartKind) : Exception + ChartKind :=
  match failing with
  | Some bad => if ChartKind_eqb bad k then inl chart_error else inr k
  | None => inr k
  end.

Definition scripted_library (fit_error : option Exception) (rows : nat)
  (failing : option ChartKind) (chart_error : Exception)
  : Library unit ChartKind nat :=
  {| fit_transform := fun _ _ =>
       match fit_error with
       | Some e => inl e
       | None => inr tt
       end;
     get_topic_info := fun _ => rows;
     topic_info_rows := fun n => n;
     visualize_barchart := fun _ _ => scripted_chart failing chart_error Frequency;
     visualize_hierarchy := fun _ => scripted_chart failing chart_error Hierarchy;
     visualize_heatmap := fun _ => scripted_chart failing chart_error Heatmap;
     visualize_topics := fun _ => scripted_chart failing chart_error TopicWords |}.

(** Text cells: [str] of a Python [str] is itself. *)
Definition text_to_str (v : pystr) : pystr := v.

Definition manual_inputs (text : string) (clicked : bool) : Inputs pystr :=
  {| user_input := str text; uploaded_file := None; analyze_button := clicked |}.

(** Five short documents typed in the text area. *)
Definition five_lines : string :=
  String.concat (String (ascii_of_nat 10) EmptyString)
    ["cats purr"; "dogs bark"; "cows moo"; "owls hoot"; "bees buzz"]%string.

(** The heading of each chart (lines 173, 181, 189, 197). *)
Definition chart_title (k : ChartKind) : pystr :=
  match k with
  | Frequency => str "Topic Frequency"
  | Hierarchy => str "Topic Hierarchy"
  | Heatmap => str "Topic Similarity Heatmap"
  | TopicWords => str "Top Words per Topic"
  end.

Definition chart_call (top_n : Z) (k : ChartKind) : LibraryCall :=
  match k with
  | Frequency => call_visualize_barchart top_n
  | Hierarchy => call_visualize_hierarchy
  | Heatmap => call_visualize_heatmap
  | TopicWords => call_visualize_topics
  end.

(** What one [try]/[except] chart block leaves on the page: its heading,
    the call, then the chart or the warning. *)
Definition chart_block {Value Model Figure TopicInfo}
  (bertopic : Library Model Figure TopicInfo) (fitted : Model) (top_n : Z)
  (k : ChartKind) : list (Event Value Figure TopicInfo) :=
  st (subheader (chart_title k))
  :: lib (chart_call top_n k)
  :: match chart_result bertopic fitted top_n k with
     | inl e => [st (warning (chart_warning k e))]
     | inr fig => [st (plotly_chart fig)]
     end.

(** What the analysis leaves on the page once the fit has returned
    [fitted]: steps 1 to 3, the chart blocks, the closing message. *)
Definition fitted_page {Value Model Figure TopicInfo}
  (bertopic : Library Model Figure TopicInfo) (cfg : Config)
  (documents : list pystr) (fitted : Model) : list (Event Value Figure TopicInfo) :=
  let top_n := Z.min (top_n_topics cfg)
                 (Z.of_nat (topic_info_rows bertopic (get_topic_info bertopic fitted)) - 1) in
  [st (header (str "Step 1: Initialize BERTopic"));
   st (write (str "Initializing the BERTopic model..."));
   st (header (str "Step 2: Fit the Model"));
   st (write (str "Fitting the BERTopic model to your data..."));
   lib (call_fit_transform (make_topic_model cfg documents) documents);
   st (header (str "Step 3: Extracted Topics"));
   st (write (str "The following topics were extracted:"));
   lib call_get_topic_info;
   st (dataframe (TopicSummary (get_topic_info bertopic fitted)));
   st (header (str "Step 4: Visualizations"))]
  ++ chart_block bertopic fitted top_n Frequency
  ++ (if show_all_viz cfg then
        chart_block bertopic fitted top_n Hierarchy
        ++ chart_block bertopic fitted top_n Heatmap
        ++ chart_block bertopic fitted top_n TopicWords
      else [])
  ++ [st (success (str "BERTopic analysis complete!"))].

(** The documents of a fit call are a fixed point of the normalization and
    none of them is blank; every other event passes. *)
Definition fit_documents_normalized {Value Figure TopicInfo}
  (ev : Event Value Figure TopicInfo) : Prop :=
  match ev with
  | lib (call_fit_transform _ documents) =>
      strip_nonempty documents = documents
      /\ Forall (fun doc => doc <> [] /\ blank doc = false) documents
  | _ => True
  end.

(** A string that does not begin with whitespace. *)
Definition starts_clean (s : pystr) : Prop :=
  match s with
  | [] => True
  | c :: _ => isspace c = false
  end.

(** *** The two input paths, stated without the code's own functions *)

(** [doc] is [entry] trimmed: [entry] is [doc] between a run of whitespace
    before it and one after it, and [doc] itself neither begins nor ends
    with whitespace. *)
Definition trimmed_of (entry doc : pystr) : Prop :=
  exists pre post,
    entry = pre ++ doc ++ post
    /\ blank pre = true /\ blank post = true
    /\ starts_clean doc /\ starts_clean (rev doc).

(** [lines] are the lines of [text]: put back together with a line feed
    between neighbours they give [text], and no line holds a line feed. *)
Definition lines_of (text : pystr) (lines : list pystr) : Prop :=
  join newline lines = text
  /\ lines <> []
  /\ Forall (fun line => ~ In newline line) lines.

(** [docs] are the entries, each trimmed, those empty after trimming
    dropped, in the order of the entries. *)
Inductive trimmed_nonempty : list pystr -> list pystr -> Prop :=
| trimmed_nil : trimmed_nonempty [] []
| trimmed_drop entry entries docs :
    trimmed_of entry [] ->
    trimmed_nonempty entries docs ->
    trimmed_nonempty (entry :: entries) docs
| trimmed_keep entry doc entries docs :
    trimmed_of entry doc ->
    doc <> [] ->
    trimmed_nonempty entries docs ->
    trimmed_nonempty (entry :: entries) (doc :: docs).

(** Manual path: split on line breaks, trim, drop empties, keep order. *)
Definition spec_manual_documents (text : pystr) (docs : list pystr) : Prop :=
  exists lines, lines_of text lines /\ trimmed_nonempty lines docs.

(** [values] are the values of the column's rows that are not missing, in
    row order. *)
Inductive present_values {Value : Type} : Series Value -> list Value -> Prop :=
| present_nil : present_values [] []
| present_missing column values :
    present_values column values ->
    present_values (None :: column) values
| present_value v column values :
    present_values column values ->
    present_values (Some v :: column) (v :: values).

(** Tabular path: drop the rows whose value is missing, coerce the others to
    text, trim, drop empties, keep row order. *)
Definition spec_csv_documents {Value} (to_str : Value -> pystr)
  (column : Series Value) (docs : list pystr) : Prop :=
  exists values,
    present_values column values
    /\ trimmed_nonempty (List.map to_str values) docs.

(** A column with a missing cell, a whitespace-only cell and an empty one
    among two usable ones. *)
Definition mixed_column : Series pystr :=
  [None; Some (str "x"); Some (str "   "); Some []; Some (str "  y ")].

Definition mixed_upload : Upload pystr :=
  {| df := [(str "text", mixed_column)]; column_name := Some (str "text") |}.

(** The sidebar with the neighbour slider at its minimum. *)
Definition narrow_config : Config :=
  {| n_neighbors_max := 2; n_components := 2; min_dist := 0;
     metric := cosine; min_topic_size := 2; language := english;
     top_n_topics := 10; show_all_viz := true |}.

(** The column of the specification's CSV example: NaN, "x", "  y ". *)
Definition example_column : Series pystr :=
  [None; Some (str "x"); Some (str "  y ")].

(** The manual input of the specification's example. *)
Definition example_text : pystr :=
  str "a" ++ [newline; newline] ++ str "  b  " ++ [newline] ++ str "c".

(** The sidebar with top-n-topics at its maximum. *)
Definition wide_config : Config :=
  {| n_neighbors_max := 5; n_components := 2; min_dist := 0;
     metric := cosine; min_topic_size := 2; language := english;
     top_n_topics := 20; show_all_viz := true |}.

(** The documents of [five_lines] and the globals the tabs leave for them. *)
Definition five_docs : list pystr :=
  [str "cats purr"; str "dogs bark"; str "cows moo"; str "owls hoot"; str "bees buzz"].

Definition five_globals : Globals :=
  {| documents := Some five_docs; source := Some (str "manual") |}.

(** An uploaded table with an id column and the example column. *)
Definition example_upload : Upload pystr :=
  {| df := [(str "id", [Some (str "1"); Some (str "2"); Some (str "3")]);
            (str "text", example_column)];
     column_name := Some (str "text") |}.

(** The Document Set the analysis section sees: [if documents:] reads
    [None] as no document at all. *)
Definition document_set (g : Globals) : list pystr :=
  match documents g with
  | Some docs => docs
  | None => []
  end.

(** The globals before the tabs run. *)
Definition no_globals : Globals := {| documents := None; source := None |}.

(** ** Further readings of the page *)

(** A cell that yields no document: missing, or text of whitespace only. *)
Definition cell_blank {Value} (to_str : Value -> pystr) (cell : option Value) : bool :=
  match cell with
  | None => true
  | Some v => blank (to_str v)
  end.

(** The chart blocks the page runs after a fit (lines 170-209). *)
Definition charts_shown (cfg : Config) : list ChartKind :=
  if show_all_viz cfg then [Frequency; Hierarchy; Heatmap; TopicWords]
  else [Frequency].

(** The argument of the frequency chart (lines 174 and 206). *)
Definition top_n_limit {Model Figure TopicInfo}
  (bertopic : Library Model Figure TopicInfo) (cfg : Config) (fitted : Model) : Z :=
  Z.min (top_n_topics cfg)
    (Z.of_nat (topic_info_rows bertopic (get_topic_info bertopic fitted)) - 1).

(** What the result of a chart generator puts on the page: the chart, or
    the warning of its block. *)
Definition chart_event {Value Model Figure TopicInfo}
  (bertopic : Library Model Figure TopicInfo) (fitted : Model) (top_n : Z)
  (k : ChartKind) : Event Value Figure TopicInfo :=
  match chart_result bertopic fitted top_n k with
  | inl e => st (warning (chart_warning k e))
  | inr fig => st (plotly_chart fig)
  end.

Section MoreObservations.

Context {Value Figure TopicInfo : Type}.

Local Abbreviation Event := (Event Value Figure TopicInfo).

Definition is_chart_or_warning (ev : Event) : bool :=
  is_plotly_chart ev || is_warning ev.

(** The events the analysis can issue. *)
Definition is_analysis_stage (ev : Event) : bool :=
  match ev with
  | st (header _) | st (write _) | st (subheader _)
  | st (dataframe (TopicSummary _)) | st (plotly_chart _)
  | st (warning _) | st (error _) | st (success _) | lib _ => true
  | _ => false
  end.

End MoreObservations.

(** Inputs with a text typed and, possibly, a table uploaded. *)
Definition typed_inputs {Value} (text : pystr) (upload : option (Upload Value))
  (clicked : bool) : Inputs Value :=
  {| user_input := text; uploaded_file := upload; analyze_button := clicked |}.

(** An upload whose only column holds nothing usable. *)
Definition blank_upload : Upload pystr :=
  {| df := [(str "text", [None; Some (str "   "); Some []])];
     column_name := Some (str "text") |}.

(** * Properties *)

(** ** [strip] and [split] *)

Lemma dropwhile_decompose p s :
  exists prefix, s = prefix ++ dropwhile p s /\ forallb p prefix = true.
Proof.
  induction s as [|c s [prefix [Hs Hp]]]; simpl.
  - exists []. split; reflexivity.
  - destruct (p c) eqn:Hc.
    + exists (c :: prefix). simpl. rewrite Hc, Hp. split; [now f_equal | reflexivity].
    + exists []. split; reflexivity.
Qed.

Lemma lstrip_starts_clean s : starts_clean (lstrip s).
Proof.
  unfold lstrip. induction s as [|c s IH]; simpl; [exact I|].
  destruct (isspace c) eqn:Hc; [exact IH | exact Hc].
Qed.

Lemma lstrip_fixed s : starts_clean s -> lstrip s = s.
Proof.
  unfold lstrip. destruct s as [|c s]; simpl; [reflexivity|].
  intros ->. reflexivity.
Qed.

Lemma rstrip_prefix s : exists suffix, s = rstrip s ++ suffix.
Proof.
  unfold rstrip.
  destruct (dropwhile_decompose isspace (rev s)) as [prefix [Hs _]].
  exists (rev prefix).
  rewrite <- rev_app_distr, <- Hs, rev_involutive. reflexivity.
Qed.

Lemma starts_clean_prefix u w : starts_clean (u ++ w) -> starts_clean u.
Proof. destruct u; simpl; auto. Qed.

Lemma rstrip_starts_clean s : starts_clean s -> starts_clean (rstrip s).
Proof.
  intros H. destruct (rstrip_prefix s) as [w Hw].
  rewrite Hw in H. eapply starts_clean_prefix; eauto.
Qed.

Lemma rstrip_idempotent s : rstrip (rstrip s) = rstrip s.
Proof.
  unfold rstrip. rewrite rev_involutive. f_equal.
  apply (lstrip_fixed (dropwhile isspace (rev s))), lstrip_starts_clean.
Qed.

Lemma strip_starts_clean s : starts_clean (strip s).
Proof. apply rstrip_starts_clean, lstrip_starts_clean. Qed.

Lemma strip_idempotent s : strip (strip s) = strip s.
Proof.
  unfold strip at 1. rewrite (lstrip_fixed (strip s)) by apply strip_starts_clean.
  unfold strip. apply rstrip_idempotent.
Qed.

Lemma truthy_nonempty s : truthy s = true <-> s <> [].
Proof. destruct s; simpl; split; congruence. Qed.

Lemma clean_nonempty_not_blank s :
  starts_clean s -> truthy s = true -> blank s = false.
Proof.
  destruct s as [|c s]; simpl; [discriminate|].
  intros -> _. reflexivity.
Qed.

Lemma lstrip_blank s : blank s = true -> lstrip s = [].
Proof.
  unfold lstrip, blank. induction s as [|c s IH]; simpl; [reflexivity|].
  destruct (isspace c); simpl; [exact IH | discriminate].
Qed.

(** [strip] empties exactly the whitespace-only strings. *)
Lemma strip_empty_iff_blank s : truthy (strip s) = false <-> blank s = true.
Proof.
  split.
  - intros H. destruct (truthy (strip s)) eqn:Ht; [discriminate|].
    destruct (strip s) as [|c t] eqn:Hs; [|discriminate].
    unfold strip, rstrip in Hs.
    assert (Hrev : dropwhile isspace (rev (lstrip s)) = []).
    { rewrite <- (rev_involutive (dropwhile _ _)), Hs. reflexivity. }
    destruct (dropwhile_decompose isspace (rev (lstrip s))) as [pre [Hd Hp]].
    rewrite Hrev, app_nil_r in Hd.
    assert (Hall : blank (lstrip s) = true).
    { unfold blank. rewrite <- (rev_involutive (lstrip s)), Hd.
      rewrite forallb_forall in *. intros x Hx. apply Hp. now apply in_rev. }
    pose proof (lstrip_starts_clean s) as Hc.
    destruct (lstrip s) as [|c t] eqn:Hl.
    + clear - Hl. unfold lstrip, blank in *.
      induction s as [|c s IH]; simpl in *; [reflexivity|].
      destruct (isspace c); simpl; [auto | discriminate].
    + simpl in Hc, Hall. rewrite Hc in Hall. discriminate.
  - intros H. unfold strip. rewrite lstrip_blank by exact H. reflexivity.
Qed.

Lemma split_nonempty sep s : split sep s <> [].
Proof.
  destruct s as [|c s]; simpl; [discriminate|].
  destruct (c =? sep)%N; [discriminate|].
  destruct (split sep s); discriminate.
Qed.

Lemma join_split sep s : join sep (split sep s) = s.
Proof.
  induction s as [|c s IH]; simpl; [reflexivity|].
  pose proof (split_nonempty sep s) as Hne.
  destruct (split sep s) as [|piece pieces] eqn:Hs; [congruence|].
  destruct (c =? sep)%N eqn:Hc.
  - apply N.eqb_eq in Hc. subst c. simpl. now rewrite <- IH.
  - destruct pieces; simpl in *; now rewrite <- IH.
Qed.

Lemma split_pieces_no_sep sep s :
  Forall (fun piece => ~ In sep piece) (split sep s).
Proof.
  induction s as [|c s IH]; simpl.
  - constructor; [intros [] | constructor].
  - destruct (c =? sep)%N eqn:Hc.
    + constructor; [intros [] | exact IH].
    + apply N.eqb_neq in Hc.
      destruct (split sep s) as [|piece pieces]; [repeat constructor; simpl; tauto|].
      inversion IH; subst. constructor; [|assumption].
      simpl. tauto.
Qed.

(** ** The normalization step *)

Lemma strip_nonempty_entries documents :
  Forall (fun doc => truthy doc = true /\ strip doc = doc /\ blank doc = false)
         (strip_nonempty documents).
Proof.
  induction documents as [|doc rest IH]; simpl; [constructor|].
  destruct (truthy (strip doc)) eqn:Ht; [|exact IH].
  constructor; [|exact IH].
  repeat split; [exact Ht | apply strip_idempotent |].
  apply clean_nonempty_not_blank; [apply strip_starts_clean | exact Ht].
Qed.

Lemma strip_nonempty_fixed documents :
  Forall (fun doc => truthy doc = true /\ strip doc = doc) documents ->
  strip_nonempty documents = documents.
Proof.
  induction 1 as [|doc rest [Ht Hs] _ IH]; simpl; [reflexivity|].
  rewrite Hs, Ht, IH. reflexivity.
Qed.

Lemma strip_nonempty_twice documents :
  strip_nonempty (strip_nonempty documents) = strip_nonempty documents.
Proof.
  apply strip_nonempty_fixed.
  eapply Forall_impl; [|apply strip_nonempty_entries].
  simpl. tauto.
Qed.

Lemma blank_rev s : blank (rev s) = blank s.
Proof.
  unfold blank. destruct (forallb isspace s) eqn:Hs.
  - rewrite forallb_forall in *. intros c Hc. apply Hs. now apply in_rev.
  - destruct (forallb isspace (rev s)) eqn:Hr; [|reflexivity].
    rewrite <- Hs. symmetry. rewrite forallb_forall in *.
    intros c Hc. apply Hr. now apply in_rev in Hc.
Qed.

Lemma blank_app a b : blank (a ++ b) = blank a && blank b.
Proof. unfold blank. apply forallb_app. Qed.

(** [strip] removes a whitespace prefix and a whitespace suffix, nothing
    else. *)
Lemma strip_decompose s :
  exists pre post,
    s = pre ++ strip s ++ post /\ blank pre = true /\ blank post = true.
Proof.
  destruct (dropwhile_decompose isspace s) as [pre [Hs Hpre]].
  destruct (dropwhile_decompose isspace (rev (lstrip s))) as [q [Hq Hblank]].
  exists pre, (rev q). repeat split.
  - rewrite Hs at 1. f_equal. unfold strip, rstrip.
    rewrite <- rev_app_distr, <- Hq, rev_involutive. reflexivity.
  - exact Hpre.
  - rewrite blank_rev. exact Hblank.
Qed.

Lemma in_strip c s : In c (strip s) -> In c s.
Proof.
  intros Hc. destruct (strip_decompose s) as [pre [post [Hs _]]].
  rewrite Hs. apply in_or_app. right. apply in_or_app. left. exact Hc.
Qed.

Lemma strip_ends_clean s : starts_clean (rev (strip s)).
Proof.
  unfold strip, rstrip. rewrite rev_involutive.
  apply (lstrip_starts_clean (rev (lstrip s))).
Qed.

Lemma hd_clean s : starts_clean s -> s <> [] -> isspace (hd newline s) = false.
Proof. destruct s; simpl; [congruence | auto]. Qed.

Lemma last_clean s :
  starts_clean (rev s) -> s <> [] -> isspace (last s newline) = false.
Proof.
  intros Hc Hne. destruct (rev s) as [|c r] eqn:Hr.
  - apply (f_equal (@rev char)) in Hr. rewrite rev_involutive in Hr.
    simpl in Hr. congruence.
  - apply (f_equal (@rev char)) in Hr. rewrite rev_involutive in Hr.
    simpl in Hr. rewrite Hr, last_last. exact Hc.
Qed.

Lemma truthy_strip_blank s : truthy (strip s) = negb (blank s).
Proof.
  destruct (truthy (strip s)) eqn:Ht, (blank s) eqn:Hb; try reflexivity.
  - apply strip_empty_iff_blank in Hb. congruence.
  - apply strip_empty_iff_blank in Ht. congruence.
Qed.

Lemma in_strip_nonempty doc entries :
  In doc (strip_nonempty entries) ->
  exists entry, In entry entries /\ doc = strip entry /\ truthy doc = true.
Proof.
  induction entries as [|e rest IH]; simpl; [tauto|].
  destruct (truthy (strip e)) eqn:Ht.
  - intros [<-|Hin].
    + exists e. auto.
    + destruct (IH Hin) as [entry [H1 H2]]. exists entry. auto.
  - intros Hin. destruct (IH Hin) as [entry [H1 H2]]. exists entry. auto.
Qed.

Lemma strip_nonempty_app a b :
  strip_nonempty (a ++ b) = strip_nonempty a ++ strip_nonempty b.
Proof.
  induction a as [|e a IH]; simpl; [reflexivity|].
  destruct (truthy (strip e)); simpl; now rewrite IH.
Qed.

Lemma strip_nonempty_length entries :
  (List.length (strip_nonempty entries) <= List.length entries)%nat.
Proof.
  induction entries as [|e rest IH]; simpl; [lia|].
  destruct (truthy (strip e)); simpl; lia.
Qed.

Lemma strip_nonempty_nil_iff entries :
  strip_nonempty entries = [] <-> forallb blank entries = true.
Proof.
  induction entries as [|e rest IH]; simpl; [tauto|].
  rewrite truthy_strip_blank.
  destruct (blank e); simpl; [exact IH|].
  split; discriminate.
Qed.

Lemma split_app sep a b :
  split sep (a ++ sep :: b) = split sep a ++ split sep b.
Proof.
  induction a as [|c a IH]; simpl.
  - rewrite N.eqb_refl. reflexivity.
  - rewrite IH. destruct (c =? sep)%N; [reflexivity|].
    pose proof (split_nonempty sep a) as Hne.
    destruct (split sep a) as [|piece pieces]; [congruence | reflexivity].
Qed.

Lemma split_without_sep sep s : ~ In sep s -> split sep s = [s].
Proof.
  induction s as [|c s IH]; simpl; [reflexivity|].
  intros Hn. destruct (c =? sep)%N eqn:Hc.
  - apply N.eqb_eq in Hc. tauto.
  - rewrite IH by tauto. reflexivity.
Qed.

Lemma split_join sep pieces :
  pieces <> [] ->
  Forall (fun piece => ~ In sep piece) pieces ->
  split sep (join sep pieces) = pieces.
Proof.
  intros Hne Hall. induction Hall as [|piece more Hp Hmore IH]; [congruence|].
  destruct more as [|next more].
  - simpl. apply split_without_sep. exact Hp.
  - change (join sep (piece :: next :: more))
      with (piece ++ sep :: join sep (next :: more)).
    rewrite split_app, split_without_sep by exact Hp.
    rewrite IH by discriminate. reflexivity.
Qed.

Lemma split_length sep s :
  List.length (split sep s) = S (count_occ N.eq_dec s sep).
Proof.
  induction s as [|c s IH]; simpl; [reflexivity|].
  pose proof (split_nonempty sep s) as Hne.
  destruct (N.eqb_spec c sep) as [->|Hc].
  - destruct (N.eq_dec sep sep); [|congruence]. simpl. now rewrite IH.
  - destruct (N.eq_dec c sep); [congruence|].
    destruct (split sep s) as [|piece pieces]; [congruence|].
    simpl in *. exact IH.
Qed.

Lemma blank_split sep s :
  isspace sep = true -> forallb blank (split sep s) = blank s.
Proof.
  intros Hsep. induction s as [|c s IH]; simpl; [reflexivity|].
  pose proof (split_nonempty sep s) as Hne.
  destruct (N.eqb_spec c sep) as [->|Hc].
  - simpl. rewrite Hsep. exact IH.
  - destruct (split sep s) as [|piece pieces]; [congruence|].
    simpl in *. rewrite <- IH. now rewrite andb_assoc.
Qed.

Lemma manual_documents_no_newline text :
  Forall (fun doc => ~ In newline doc) (strip_nonempty (split newline text)).
Proof.
  apply Forall_forall. intros doc Hdoc Hnl.
  destruct (in_strip_nonempty doc _ Hdoc) as [line [Hline [-> _]]].
  pose proof (split_pieces_no_sep newline text) as Hall.
  rewrite Forall_forall in Hall. apply (Hall line Hline).
  apply in_strip. exact Hnl.
Qed.

(** ** The specification's relations and the code's functions *)

Lemma lstrip_blank_app pre s : blank pre = true -> lstrip (pre ++ s) = lstrip s.
Proof.
  unfold lstrip, blank. induction pre as [|c pre IH]; simpl; [reflexivity|].
  destruct (isspace c); simpl; [exact IH | discriminate].
Qed.

Lemma rstrip_app_blank s post : blank post = true -> rstrip (s ++ post) = rstrip s.
Proof.
  intros Hpost. unfold rstrip. rewrite rev_app_distr. f_equal.
  apply (lstrip_blank_app (rev post) (rev s)). rewrite blank_rev. exact Hpost.
Qed.

Lemma rstrip_fixed s : starts_clean (rev s) -> rstrip s = s.
Proof.
  intros Hclean. unfold rstrip.
  change (dropwhile isspace (rev s)) with (lstrip (rev s)).
  rewrite lstrip_fixed by exact Hclean. apply rev_involutive.
Qed.

(** [strip] does trim. *)
Lemma trimmed_of_strip entry : trimmed_of entry (strip entry).
Proof.
  destruct (strip_decompose entry) as [pre [post [Hs [Hpre Hpost]]]].
  exists pre, post. repeat split; try assumption.
  - apply strip_starts_clean.
  - apply strip_ends_clean.
Qed.

(** Trimming has one result only, the one of [strip]. *)
Lemma trimmed_of_unique entry doc : trimmed_of entry doc -> strip entry = doc.
Proof.
  intros (pre & post & -> & Hpre & Hpost & Hstart & Hend).
  unfold strip. rewrite lstrip_blank_app by exact Hpre.
  destruct doc as [|c doc].
  - simpl. rewrite lstrip_blank by exact Hpost. reflexivity.
  - rewrite lstrip_fixed by exact Hstart.
    rewrite rstrip_app_blank by exact Hpost.
    apply rstrip_fixed. exact Hend.
Qed.

Lemma trimmed_nonempty_iff entries docs :
  trimmed_nonempty entries docs <-> strip_nonempty entries = docs.
Proof.
  split.
  - induction 1 as [|entry entries docs Htrim _ IH
                     |entry doc entries docs Htrim Hne _ IH]; simpl.
    + reflexivity.
    + rewrite (trimmed_of_unique entry [] Htrim). exact IH.
    + rewrite (trimmed_of_unique entry doc Htrim).
      apply truthy_nonempty in Hne. rewrite Hne, IH. reflexivity.
  - intros <-. induction entries as [|entry entries IH]; simpl; [constructor|].
    pose proof (trimmed_of_strip entry) as Htrim.
    destruct (truthy (strip entry)) eqn:Ht.
    + apply trimmed_keep; [exact Htrim | apply truthy_nonempty; exact Ht | exact IH].
    + destruct (strip entry) as [|c rest]; [|discriminate].
      apply trimmed_drop; [exact Htrim | exact IH].
Qed.

Lemma lines_of_iff text lines : lines_of text lines <-> split newline text = lines.
Proof.
  split.
  - intros (Hjoin & Hne & Hall). rewrite <- Hjoin. apply split_join; assumption.
  - intros <-. repeat split.
    + apply join_split.
    + apply split_nonempty.
    + apply split_pieces_no_sep.
Qed.

Lemma present_values_iff {Value} (column : Series Value) (values : list Value) :
  present_values column values <-> dropna column = values.
Proof.
  split.
  - induction 1; simpl; congruence.
  - intros <-. induction column as [|[v|] column IH]; simpl; constructor; exact IH.
Qed.

Lemma spec_manual_documents_iff text docs :
  spec_manual_documents text docs <-> strip_nonempty (split newline text) = docs.
Proof.
  split.
  - intros (lines & Hlines & Hdocs).
    apply lines_of_iff in Hlines. apply trimmed_nonempty_iff in Hdocs.
    congruence.
  - intros Hdocs. exists (split newline text).
    split; [apply lines_of_iff | apply trimmed_nonempty_iff]; auto.
Qed.

Lemma spec_csv_documents_iff {Value} (to_str : Value -> pystr)
  (column : Series Value) (docs : list pystr) :
  spec_csv_documents to_str column docs
  <-> strip_nonempty (astype_str to_str (dropna column)) = docs.
Proof.
  unfold astype_str. split.
  - intros (values & Hvalues & Hdocs).
    apply present_values_iff in Hvalues. apply trimmed_nonempty_iff in Hdocs.
    congruence.
  - intros Hdocs. exists (dropna column).
    split; [apply present_values_iff | apply trimmed_nonempty_iff]; auto.
Qed.

(** ** The neighbour count *)

Lemma effective_n_neighbors_refines n_neighbors_max documents :
  effective_n_neighbors n_neighbors_max documents
  = spec_effective_neighbors n_neighbors_max (len documents).
Proof.
  unfold effective_n_neighbors, spec_effective_neighbors, clamp.
  destruct (Z.ltb_spec (len documents - 2) 2);
    destruct (Z.ltb_spec n_neighbors_max 2);
    try destruct (Z.ltb_spec (len documents - 2) n_neighbors_max); lia.
Qed.

Lemma len_nonneg {A} (l : list A) : 0 <= len l.
Proof. unfold len. lia. Qed.

(** The reduction configuration carries seed 42 and random initialization,
    whatever the documents and the sidebar say. *)
Lemma umap_model_seed_and_init cfg documents :
  random_state (umap_model (make_topic_model cfg documents)) = 42
  /\ init (umap_model (make_topic_model cfg documents)) = str "random".
Proof. split; reflexivity. Qed.

(** ** Traces of the script *)

Section Traces.

Context {Value Model Figure TopicInfo : Type}.
Variable bertopic : Library Model Figure TopicInfo.
Variable to_str : Value -> pystr.

Local Abbreviation Event := (Event Value Figure TopicInfo).
Local Abbreviation Run := (Run Value Figure TopicInfo).
Local Abbreviation load_documents :=
  (load_documents (Figure:=Figure) (TopicInfo:=TopicInfo) to_str).
Local Abbreviation main := (main bertopic to_str).
Local Abbreviation analysis_section := (analysis_section (Value:=Value) bertopic).

Lemma filter_input_stage (p : Event -> bool) (events : list Event) :
  (forall ev, is_input_stage ev = true -> p ev = false) ->
  Forall (fun ev => is_input_stage ev = true) events ->
  filter p events = [].
Proof.
  intros Hp. induction 1 as [|ev events Hev _ IH]; simpl; [reflexivity|].
  rewrite (Hp ev Hev). exact IH.
Qed.

Lemma tab1_input_stage user_input g :
  Forall (fun ev : Event => is_input_stage ev = true) (trace (tab1 user_input g)).
Proof.
  unfold tab1. destruct (truthy user_input); cbn; repeat constructor.
Qed.

Lemma tab2_input_stage uploaded_file g :
  Forall (fun ev : Event => is_input_stage ev = true)
         (trace (tab2 to_str uploaded_file g)).
Proof.
  unfold tab2. destruct uploaded_file as [upload|]; [|cbn; repeat constructor].
  destruct (column_name upload) as [name|]; [|cbn; repeat constructor].
  destruct (truthy name); [|cbn; repeat constructor].
  destruct (getitem (df upload) name); cbn; repeat constructor.
Qed.

Lemma tab1_returns user_input g :
  outcome (tab1 (Value:=Value) (Figure:=Figure) (TopicInfo:=TopicInfo) user_input g)
  = Returned (if truthy user_input
              then {| documents := Some (strip_nonempty (split newline user_input));
                      source := Some (str "manual") |}
              else g).
Proof. unfold tab1. destruct (truthy user_input); reflexivity. Qed.

Lemma load_documents_input_stage inp :
  Forall (fun ev : Event => is_input_stage ev = true)
         (trace (load_documents inp)).
Proof.
  unfold load_documents.
  pose proof (tab1_input_stage (user_input inp)
                {| documents := None; source := None |}) as H1.
  pose proof (tab1_returns (user_input inp)
                {| documents := None; source := None |}) as H2.
  destruct (tab1 _ _) as [events o]. simpl in H1, H2. subst o.
  unfold bind. simpl. apply Forall_app. split; [exact H1|].
  apply tab2_input_stage.
Qed.

(** After both tabs, [documents] is either still [None], with [source]
    [None] too, or the result of the trim-and-drop-empty step. *)
Lemma load_documents_globals inp g :
  outcome (load_documents inp) = Returned g ->
  (documents g = None /\ source g = None)
  \/ (exists entries, documents g = Some (strip_nonempty entries))
     /\ source g <> None.
Proof.
  unfold load_documents.
  pose proof (tab1_returns (user_input inp)
                {| documents := None; source := None |}) as H1.
  destruct (tab1 _ _) as [events o]. simpl in H1. subst o.
  unfold bind, outcome at 1. simpl snd.
  set (g1 := if truthy (user_input inp) then _ else _).
  assert (Hg1 : (documents g1 = None /\ source g1 = None)
                \/ (exists entries, documents g1 = Some (strip_nonempty entries))
                   /\ source g1 <> None).
  { subst g1. destruct (truthy (user_input inp)); simpl.
    - right. split; [eexists; reflexivity | discriminate].
    - left. split; reflexivity. }
  clearbody g1. unfold tab2.
  destruct (uploaded_file inp) as [upload|]; [|cbn; intros [= <-]; exact Hg1].
  destruct (column_name upload) as [name|]; [|cbn; intros [= <-]; exact Hg1].
  destruct (truthy name); [|cbn; intros [= <-]; exact Hg1].
  destruct (getitem (df upload) name) as [e|column]; cbn; [discriminate|].
  intros [= <-]. right. simpl. split; [eexists; reflexivity | discriminate].
Qed.

(** The run of the whole script, once the tabs have produced [g]. *)
Lemma main_run cfg inp g :
  outcome (load_documents inp) = Returned g ->
  main cfg inp
  = (st (title (str "BERTopic The App"))
       :: st (write (str "This app demonstrates the use of BERTopic for topic modeling on free text data."))
       :: trace (load_documents inp)
       ++ trace (analysis_section cfg (analyze_button inp) g),
     outcome (analysis_section cfg (analyze_button inp) g)).
Proof.
  unfold main. destruct (load_documents inp) as [events o].
  simpl. intros ->. reflexivity.
Qed.

Lemma filter_main (p : Event -> bool) cfg inp g :
  (forall ev, is_input_stage ev = true -> p ev = false) ->
  p (st (title (str "BERTopic The App"))) = false ->
  outcome (load_documents inp) = Returned g ->
  filter p (trace (main cfg inp))
  = filter p (trace (analysis_section cfg (analyze_button inp) g)).
Proof.
  intros Hp Ht Hg. rewrite (main_run cfg inp g Hg).
  unfold trace at 1. simpl fst.
  change (?a :: ?b :: ?l ++ ?r) with ([a; b] ++ l ++ r).
  rewrite !filter_app.
  rewrite (filter_input_stage p (trace (load_documents inp)) Hp)
    by apply load_documents_input_stage.
  cbn [filter].
  rewrite Ht, (Hp (st (write _)) eq_refl). reflexivity.
Qed.

End Traces.

(** ** The analysis *)

Ltac input_stage_disjoint :=
  let el := fresh "el" in
  let c := fresh "c" in
  intros [el|c]; [destruct el as [ | | | | | | | | | [|] | | | | | ] | ];
  simpl; congruence.

Section Analysis.

Context {Value Model Figure TopicInfo : Type}.
Variable bertopic : Library Model Figure TopicInfo.
Variable to_str : Value -> pystr.

Local Abbreviation Event := (Event Value Figure TopicInfo).
Local Abbreviation load_documents :=
  (load_documents (Figure:=Figure) (TopicInfo:=TopicInfo) to_str).
Local Abbreviation main := (main bertopic to_str).
Local Abbreviation analysis := (analysis (Value:=Value) bertopic).
Local Abbreviation analysis_section := (analysis_section (Value:=Value) bertopic).
Local Abbreviation chart_block := (chart_block (Value:=Value) bertopic).

Lemma analysis_section_clicked cfg g docs :
  documents g = Some docs -> docs <> [] ->
  analysis_section cfg true g
  = (st (markdown (str "---")) :: st (button (str "Start Analysis"))
       :: trace (analysis cfg docs),
     outcome (analysis cfg docs)).
Proof.
  intros Hd Hne. unfold analysis_section. rewrite Hd.
  destruct docs as [|doc more]; [congruence|].
  cbv beta iota.
  destruct (analysis cfg (doc :: more)) as [events o].
  reflexivity.
Qed.

Lemma analysis_section_idle cfg g docs :
  documents g = Some docs -> docs <> [] ->
  analysis_section cfg false g
  = ([st (markdown (str "---")); st (button (str "Start Analysis"))], Returned tt).
Proof.
  intros Hd Hne. unfold analysis_section. rewrite Hd.
  destruct docs as [|doc more]; [congruence|]. reflexivity.
Qed.

Lemma analysis_section_gated cfg clicked g :
  truthy_documents (documents g) = false ->
  analysis_section cfg clicked g = empty_input_prompt g.
Proof.
  unfold analysis_section.
  destruct (documents g) as [[|doc more]|]; simpl; [reflexivity | discriminate | reflexivity].
Qed.

(** The run of the analysis when the fit raises. *)
Lemma analysis_fit_raises cfg docs e :
  fit_transform bertopic (make_topic_model cfg docs) docs = inl e ->
  analysis cfg docs
  = ([st (header (str "Step 1: Initialize BERTopic"));
      st (write (str "Initializing the BERTopic model..."));
      st (header (str "Step 2: Fit the Model"));
      st (write (str "Fitting the BERTopic model to your data..."));
      lib (call_fit_transform (make_topic_model cfg docs) docs);
      st (error (str "Error fitting model: " ++ e))],
     Stopped).
Proof.
  intros Hfit. unfold analysis. rewrite Hfit. reflexivity.
Qed.

(** The run of the analysis when the fit returns [m]. *)
Lemma analysis_fitted cfg docs m :
  fit_transform bertopic (make_topic_model cfg docs) docs = inr m ->
  analysis cfg docs = (fitted_page bertopic cfg docs m, Returned tt).
Proof.
  intros Hfit.
  unfold analysis, fitted_page, chart_block, chart_result. rewrite Hfit.
  destruct (show_all_viz cfg); cbn.
  - destruct (visualize_barchart bertopic m _), (visualize_hierarchy bertopic m),
      (visualize_heatmap bertopic m), (visualize_topics bertopic m); reflexivity.
  - destruct (visualize_barchart bertopic m _); reflexivity.
Qed.

(** A chart block holds no event of a kind [p] that rejects headings,
    chart calls, charts and warnings. *)
Lemma filter_chart_block (p : Event -> bool) m top_n k :
  (forall body, p (st (subheader body)) = false) ->
  (forall k', p (lib (chart_call top_n k')) = false) ->
  (forall fig, p (st (plotly_chart fig)) = false) ->
  (forall body, p (st (warning body)) = false) ->
  filter p (chart_block m top_n k) = [].
Proof.
  intros Hs Hc Hf Hw. unfold chart_block. cbn [filter].
  rewrite Hs, Hc.
  destruct (chart_result bertopic m top_n k); cbn [filter];
    rewrite ?Hf, ?Hw; reflexivity.
Qed.

Lemma in_chart_block m top_n k fig :
  chart_result bertopic m top_n k = inr fig ->
  In (st (plotly_chart fig)) (chart_block m top_n k).
Proof.
  intros H. unfold chart_block. rewrite H. simpl. tauto.
Qed.

(** The run of the whole script once the button is clicked on loaded
    documents. *)
Lemma main_clicked cfg inp g docs :
  outcome (load_documents inp) = Returned g ->
  documents g = Some docs -> docs <> [] ->
  analyze_button inp = true ->
  main cfg inp
  = (st (title (str "BERTopic The App"))
       :: st (write (str "This app demonstrates the use of BERTopic for topic modeling on free text data."))
       :: trace (load_documents inp)
       ++ st (markdown (str "---")) :: st (button (str "Start Analysis"))
       :: trace (analysis cfg docs),
     outcome (analysis cfg docs)).
Proof.
  intros Hg Hd Hne Hb.
  rewrite (main_run bertopic to_str cfg inp g Hg).
  rewrite Hb, (analysis_section_clicked cfg g docs Hd Hne). reflexivity.
Qed.

Lemma in_main_clicked cfg inp g docs ev :
  outcome (load_documents inp) = Returned g ->
  documents g = Some docs -> docs <> [] ->
  analyze_button inp = true ->
  In ev (trace (analysis cfg docs)) -> In ev (trace (main cfg inp)).
Proof.
  intros Hg Hd Hne Hb Hev.
  rewrite (main_clicked cfg inp g docs Hg Hd Hne Hb).
  unfold trace at 1, fst.
  right. right. apply in_or_app. right. right. right. exact Hev.
Qed.

Lemma filter_main_clicked (p : Event -> bool) cfg inp g docs :
  (forall ev, is_input_stage ev = true -> p ev = false) ->
  p (st (title (str "BERTopic The App"))) = false ->
  p (st (markdown (str "---"))) = false ->
  p (st (button (str "Start Analysis"))) = false ->
  outcome (load_documents inp) = Returned g ->
  documents g = Some docs -> docs <> [] ->
  analyze_button inp = true ->
  filter p (trace (main cfg inp)) = filter p (trace (analysis cfg docs)).
Proof.
  intros Hp Ht Hm Hbt Hg Hd Hne Hb.
  rewrite (filter_main bertopic to_str p cfg inp g Hp Ht Hg).
  rewrite Hb, (analysis_section_clicked cfg g docs Hd Hne).
  unfold trace at 1, fst. cbn [filter]. rewrite Hm, Hbt. reflexivity.
Qed.

Lemma chart_block_fit_documents m top_n k :
  Forall fit_documents_normalized (chart_block m top_n k).
Proof.
  unfold chart_block. constructor; [exact I|].
  constructor; [destruct k; exact I|].
  destruct (chart_result bertopic m top_n k); repeat constructor.
Qed.

(** Whatever the inputs, the documents of every fit call on the page are
    normalized. *)
Lemma main_fit_documents cfg inp :
  Forall fit_documents_normalized (trace (main cfg inp)).
Proof.
  pose proof (load_documents_input_stage (Figure:=Figure) (TopicInfo:=TopicInfo)
                to_str inp) as Hstage.
  assert (Hload : Forall fit_documents_normalized (trace (load_documents inp))).
  { eapply Forall_impl; [|exact Hstage].
    intros [el|c]; simpl; [intros _; exact I | discriminate]. }
  destruct (outcome (load_documents inp)) as [g| |e] eqn:Ho.
  - rewrite (main_run bertopic to_str cfg inp g Ho). unfold trace at 1, fst.
    constructor; [exact I|]. constructor; [exact I|].
    apply Forall_app. split; [exact Hload|].
    destruct (documents g) as [[|doc more]|] eqn:Hd.
    + rewrite analysis_section_gated by (rewrite Hd; reflexivity).
      unfold empty_input_prompt. destruct (source g); repeat constructor.
    + destruct (analyze_button inp).
      * rewrite (analysis_section_clicked cfg g (doc :: more) Hd) by discriminate.
        unfold trace at 1, fst. constructor; [exact I|]. constructor; [exact I|].
        assert (Hnorm : fit_documents_normalized
                          (lib (call_fit_transform
                                  (make_topic_model cfg (doc :: more)) (doc :: more))
                           : Event)).
        { destruct (load_documents_globals (Figure:=Figure) (TopicInfo:=TopicInfo)
                      to_str inp g Ho)
            as [[Hnone _]|[[entries Hsome] _]]; [congruence|].
          rewrite Hd in Hsome. injection Hsome as Hsome.
          rewrite Hsome. cbv beta iota delta [fit_documents_normalized].
          split; [apply strip_nonempty_twice|].
          eapply Forall_impl; [|apply strip_nonempty_entries].
          simpl. intros d [Ht [_ Hb]]. split; [|exact Hb].
          apply truthy_nonempty. exact Ht. }
        destruct (fit_transform bertopic (make_topic_model cfg (doc :: more))
                    (doc :: more)) as [e|m] eqn:Hfit.
        -- rewrite (analysis_fit_raises cfg _ e Hfit). unfold trace, fst.
           repeat (constructor; [first [exact I | exact Hnorm]|]). constructor.
        -- rewrite (analysis_fitted cfg _ m Hfit). unfold trace, fst, fitted_page.
           repeat (apply Forall_app; split).
           ++ repeat (constructor; [first [exact I | exact Hnorm]|]). constructor.
           ++ apply chart_block_fit_documents.
           ++ destruct (show_all_viz cfg); [|constructor].
              repeat (apply Forall_app; split); apply chart_block_fit_documents.
           ++ repeat constructor.
      * rewrite (analysis_section_idle cfg g (doc :: more) Hd) by discriminate.
        repeat constructor.
    + rewrite analysis_section_gated by (rewrite Hd; reflexivity).
      unfold empty_input_prompt. destruct (source g); repeat constructor.
  - unfold main. destruct (load_documents inp) as [events o].
    simpl in Ho, Hload. subst o. cbn.
    constructor; [exact I|]. constructor; [exact I|]. exact Hload.
  - unfold main. destruct (load_documents inp) as [events o].
    simpl in Ho, Hload. subst o. cbn.
    constructor; [exact I|]. constructor; [exact I|]. exact Hload.
Qed.

End Analysis.


(** * The claims *)

Ltac side_condition :=
  first [ eassumption | reflexivity | input_stage_disjoint ].

Section Claims.

Context {Value Model Figure TopicInfo : Type}.
Variable bertopic : Library Model Figure TopicInfo.
Variable to_str : Value -> pystr.

Local Abbreviation Event := (Event Value Figure TopicInfo).
Local Abbreviation tab1 :=
  (tab1 (Value:=Value) (Figure:=Figure) (TopicInfo:=TopicInfo)).
Local Abbreviation tab2 := (tab2 (Figure:=Figure) (TopicInfo:=TopicInfo) to_str).
Local Abbreviation load_documents :=
  (load_documents (Figure:=Figure) (TopicInfo:=TopicInfo) to_str).
Local Abbreviation main := (main bertopic to_str).
Local Abbreviation analysis := (analysis (Value:=Value) bertopic).
Local Abbreviation chart_block := (chart_block (Value:=Value) bertopic).

(** C1. For every document list and every configured maximum in [2,15], the
    one fit call of the analysis is handed the configuration built at lines
    136-150, whose neighbour count equals clamp(max, 2, count - 2) with the
    lower bound winning on an empty interval; it lies between 2 and
    max(2, count - 2) when count >= 4 and is 2 when count <= 4. *)
Theorem neighbor_count_is_clamp (cfg : Config) (docs : list pystr) :
  2 <= n_neighbors_max cfg <= 15 ->
  filter is_fit_call (trace (analysis cfg docs))
  = [lib (call_fit_transform (make_topic_model cfg docs) docs)]
  /\ n_neighbors (umap_model (make_topic_model cfg docs))
     = spec_effective_neighbors (n_neighbors_max cfg) (len docs)
  /\ (4 <= len docs ->
      2 <= n_neighbors (umap_model (make_topic_model cfg docs))
        <= Z.max 2 (len docs - 2))
  /\ (len docs <= 4 ->
      n_neighbors (umap_model (make_topic_model cfg docs)) = 2).
Proof.
  intros Hdom. split; [|split; [|split]].
  - destruct (fit_transform bertopic (make_topic_model cfg docs) docs) as [e|m] eqn:Hfit.
    + rewrite (analysis_fit_raises bertopic cfg docs e Hfit). reflexivity.
    + rewrite (analysis_fitted bertopic cfg docs m Hfit).
      unfold trace, fst, fitted_page. rewrite !filter_app.
      destruct (show_all_viz cfg); rewrite ?filter_app;
        rewrite !(filter_chart_block bertopic is_fit_call)
          by (try reflexivity; intros []; reflexivity);
        reflexivity.
  - apply effective_n_neighbors_refines.
  - cbn. unfold effective_n_neighbors. lia.
  - cbn. unfold effective_n_neighbors. lia.
Qed.

(** C2. When the fit-and-assign call raises, the page shows exactly one
    error message, the one of line 158, and the run halts: no topic summary
    table, no chart call, no chart and no warning is on the page. *)
Theorem fit_failure_halts (cfg : Config) (inp : Inputs Value) (g : Globals)
  (docs : list pystr) (e : Exception) :
  outcome (load_documents inp) = Returned g ->
  documents g = Some docs ->
  docs <> [] ->
  analyze_button inp = true ->
  fit_transform bertopic (make_topic_model cfg docs) docs = inl e ->
  filter is_error (trace (main cfg inp))
  = [st (error (str "Error fitting model: " ++ e))]
  /\ outcome (main cfg inp) = Stopped
  /\ count is_topic_summary (trace (main cfg inp)) = 0%nat
  /\ count is_chart_call (trace (main cfg inp)) = 0%nat
  /\ count is_plotly_chart (trace (main cfg inp)) = 0%nat
  /\ count is_warning (trace (main cfg inp)) = 0%nat.
Proof.
  intros Hg Hd Hne Hb Hfit. unfold count.
  rewrite !(filter_main_clicked bertopic to_str _ cfg inp g docs) by side_condition.
  rewrite (main_clicked bertopic to_str cfg inp g docs Hg Hd Hne Hb).
  rewrite (analysis_fit_raises bertopic cfg docs e Hfit).
  repeat split.
Qed.

(** C3. With a successful fit and all visualizations enabled, when exactly
    one of the four chart calls raises, the topic summary table and the
    three other charts are still rendered, the only warning on the page is
    the one naming the failed chart, no error is shown and the run reaches
    its end. *)
Theorem chart_failure_isolated (cfg : Config) (inp : Inputs Value) (g : Globals)
  (docs : list pystr) (m : Model) (k : ChartKind) (e : Exception) :
  outcome (load_documents inp) = Returned g ->
  documents g = Some docs ->
  docs <> [] ->
  analyze_button inp = true ->
  show_all_viz cfg = true ->
  fit_transform bertopic (make_topic_model cfg docs) docs = inr m ->
  chart_result bertopic m
    (Z.min (top_n_topics cfg)
       (Z.of_nat (topic_info_rows bertopic (get_topic_info bertopic m)) - 1)) k
  = inl e ->
  (forall k', k' <> k ->
     exists fig,
       chart_result bertopic m
         (Z.min (top_n_topics cfg)
            (Z.of_nat (topic_info_rows bertopic (get_topic_info bertopic m)) - 1)) k'
       = inr fig) ->
  In (st (dataframe (TopicSummary (get_topic_info bertopic m)))) (trace (main cfg inp))
  /\ (forall k' fig, k' <> k ->
        chart_result bertopic m
          (Z.min (top_n_topics cfg)
             (Z.of_nat (topic_info_rows bertopic (get_topic_info bertopic m)) - 1)) k'
        = inr fig ->
        In (st (plotly_chart fig)) (trace (main cfg inp)))
  /\ count is_plotly_chart (trace (main cfg inp)) = 3%nat
  /\ filter is_warning (trace (main cfg inp)) = [st (warning (chart_warning k e))]
  /\ count is_error (trace (main cfg inp)) = 0%nat
  /\ outcome (main cfg inp) = Returned tt.
Proof.
  intros Hg Hd Hne Hb Hall Hfit Hk Hothers.
  pose proof (analysis_fitted bertopic (Value:=Value) cfg docs m Hfit) as Ha.
  unfold fitted_page in Ha. rewrite Hall in Ha.
  set (n := Z.min (top_n_topics cfg)
              (Z.of_nat (topic_info_rows bertopic (get_topic_info bertopic m)) - 1)) in *.
  split; [|split].
  - apply (in_main_clicked bertopic to_str cfg inp g docs _ Hg Hd Hne Hb).
    rewrite Ha. unfold trace, fst. apply in_or_app. left. simpl. tauto.
  - intros k' fig _ Hfig.
    apply (in_main_clicked bertopic to_str cfg inp g docs _ Hg Hd Hne Hb).
    rewrite Ha. unfold trace, fst.
    pose proof (in_chart_block bertopic (Value:=Value) m n k' fig Hfig) as Hin.
    apply in_or_app. right. apply in_or_app.
    destruct k'; [left; exact Hin | right .. ];
      apply in_or_app; left; repeat (apply in_or_app; first [left; exact Hin | right]);
      exact Hin.
  - unfold count.
    rewrite !(filter_main_clicked bertopic to_str _ cfg inp g docs) by side_condition.
    rewrite (main_clicked bertopic to_str cfg inp g docs Hg Hd Hne Hb).
    rewrite Ha. unfold trace, outcome, fst, snd, chart_block.
    destruct k;
      try (destruct (Hothers Frequency) as [f1 H1]; [discriminate|]);
      try (destruct (Hothers Hierarchy) as [f2 H2]; [discriminate|]);
      try (destruct (Hothers Heatmap) as [f3 H3]; [discriminate|]);
      try (destruct (Hothers TopicWords) as [f4 H4]; [discriminate|]);
      rewrite ?H1, ?H2, ?H3, ?H4, Hk; cbn; repeat split; reflexivity.
Qed.

(** C4. Whatever the configured top-n-topics and whether or not all
    visualizations are enabled, a run with a successful fit makes exactly
    one frequency-chart call, and the limit it passes is
    min(top-n-topics, summary rows - 1), hence at most summary rows - 1. *)
Theorem barchart_limit (cfg : Config) (inp : Inputs Value) (g : Globals)
  (docs : list pystr) (m : Model) :
  outcome (load_documents inp) = Returned g ->
  documents g = Some docs ->
  docs <> [] ->
  analyze_button inp = true ->
  fit_transform bertopic (make_topic_model cfg docs) docs = inr m ->
  filter is_barchart_call (trace (main cfg inp))
  = [lib (call_visualize_barchart
            (Z.min (top_n_topics cfg)
               (Z.of_nat (topic_info_rows bertopic (get_topic_info bertopic m)) - 1)))]
  /\ Z.min (top_n_topics cfg)
       (Z.of_nat (topic_info_rows bertopic (get_topic_info bertopic m)) - 1)
     <= Z.of_nat (topic_info_rows bertopic (get_topic_info bertopic m)) - 1.
Proof.
  intros Hg Hd Hne Hb Hfit. split; [|lia].
  rewrite (filter_main_clicked bertopic to_str _ cfg inp g docs) by side_condition.
  rewrite (analysis_fitted bertopic cfg docs m Hfit).
  unfold trace, fst, fitted_page, chart_block, chart_result.
  destruct (show_all_viz cfg);
    destruct (visualize_barchart bertopic m _); try reflexivity;
    destruct (visualize_hierarchy bertopic m), (visualize_heatmap bertopic m),
      (visualize_topics bertopic m); reflexivity.
Qed.

(** C5. For every text of the manual tab, the Document Set the tab
    produces is the list obtained by splitting the text at line feeds,
    trimming each line and dropping the lines empty after trimming, in line
    order, and it is the only such list; it is stored in [documents] as soon
    as the text is not empty, and with no upload it is the Document Set of
    the whole script. *)
Theorem manual_documents_spec (text : pystr) (clicked : bool) :
  exists docs,
    option_map document_set (returned (outcome (tab1 text no_globals))) = Some docs
    /\ option_map documents (returned (outcome (tab1 text no_globals)))
       = Some (match text with
               | [] => None
               | _ :: _ => Some docs
               end)
    /\ option_map document_set
         (returned (outcome (load_documents
                               {| user_input := text; uploaded_file := None;
                                  analyze_button := clicked |})))
       = Some docs
    /\ spec_manual_documents text docs
    /\ (forall other, spec_manual_documents text other -> other = docs).
Proof.
  exists (strip_nonempty (split newline text)).
  assert (Hg : (if truthy text
                then {| documents := Some (strip_nonempty (split newline text));
                        source := Some (str "manual") |}
                else no_globals)
               = match text with
                 | [] => no_globals
                 | _ :: _ => {| documents := Some (strip_nonempty (split newline text));
                                source := Some (str "manual") |}
                 end)
    by (destruct text; reflexivity).
  split; [|split; [|split; [|split]]].
  - rewrite tab1_returns, Hg. destruct text; reflexivity.
  - rewrite tab1_returns, Hg. destruct text; reflexivity.
  - unfold load_documents. cbn [user_input uploaded_file].
    pose proof (tab1_returns (Value:=Value) (Figure:=Figure) (TopicInfo:=TopicInfo)
                  text no_globals) as H1.
    unfold no_globals in H1 at 1.
    destruct (tab1 text _) as [events o].
    simpl in H1. subst o. rewrite Hg. destruct text; reflexivity.
  - apply spec_manual_documents_iff. reflexivity.
  - intros other Hother. apply spec_manual_documents_iff in Hother.
    symmetry. exact Hother.
Qed.

(** C6. For every uploaded table and selected column, the documents the
    upload tab produces are the list obtained from the column's values by
    dropping the missing ones, coercing the others to text, trimming them
    and dropping those empty after trimming, in row order, and they are the
    only such list; they are the documents of the whole script, whatever the
    manual tab holds. *)
Theorem csv_documents_spec (upload : Upload Value) (name : pystr)
  (column : Series Value) (g : Globals) (text : pystr) (clicked : bool) :
  column_name upload = Some name ->
  name <> [] ->
  getitem (df upload) name = inr column ->
  exists docs,
    outcome (tab2 (Some upload) g)
    = Returned {| documents := Some docs; source := Some (str "csv") |}
    /\ outcome (load_documents {| user_input := text; uploaded_file := Some upload;
                                  analyze_button := clicked |})
       = Returned {| documents := Some docs; source := Some (str "csv") |}
    /\ spec_csv_documents to_str column docs
    /\ (forall other, spec_csv_documents to_str column other -> other = docs).
Proof.
  intros Hname Hne Hcol.
  exists (strip_nonempty (astype_str to_str (dropna column))).
  assert (Ht : truthy name = true) by (apply truthy_nonempty; exact Hne).
  assert (Htab : forall g', outcome (tab2 (Some upload) g')
                 = Returned {| documents :=
                                 Some (strip_nonempty (astype_str to_str (dropna column)));
                               source := Some (str "csv") |}).
  { intros g'. unfold tab2. rewrite Hname, Ht, Hcol. reflexivity. }
  split; [apply Htab|]. split; [|split].
  - unfold load_documents. cbn [user_input uploaded_file].
    pose proof (tab1_returns (Value:=Value) (Figure:=Figure) (TopicInfo:=TopicInfo)
                  text {| documents := None; source := None |}) as H1.
    destruct (tab1 text _) as [events o]. simpl in H1. subst o.
    unfold bind. unfold outcome at 1. simpl snd. apply Htab.
  - apply spec_csv_documents_iff. reflexivity.
  - intros other Hother. apply spec_csv_documents_iff in Hother.
    symmetry. exact Hother.
Qed.

(** C7. Whenever the tabs leave no document ([documents] is [None] or the
    empty list), the page offers no analyze button, makes no library call,
    shows no error, and shows exactly one prompt: the get-started note when
    nothing was supplied, the warning asking for a valid document when the
    input normalized to nothing. *)
Theorem empty_documents_gate (cfg : Config) (inp : Inputs Value) (g : Globals) :
  outcome (load_documents inp) = Returned g ->
  truthy_documents (documents g) = false ->
  count is_button (trace (main cfg inp)) = 0%nat
  /\ count is_library_call (trace (main cfg inp)) = 0%nat
  /\ count is_error (trace (main cfg inp)) = 0%nat
  /\ filter is_prompt (trace (main cfg inp))
     = [st (match documents g with
            | None =>
                info (0x1F446%N :: str " Enter text manually or upload a CSV file to get started (minimum 3-5 documents recommended).")
            | Some _ =>
                warning (str "Please enter at least one valid document (minimum 3-5 recommended for better results).")
            end)]
  /\ outcome (main cfg inp) = Returned tt.
Proof.
  intros Hg Hempty. unfold count.
  rewrite !(filter_main bertopic to_str _ cfg inp g) by side_condition.
  rewrite (main_run bertopic to_str cfg inp g Hg).
  rewrite (analysis_section_gated bertopic cfg _ g Hempty).
  unfold empty_input_prompt.
  destruct (load_documents_globals (Figure:=Figure) (TopicInfo:=TopicInfo)
              to_str inp g Hg) as [[Hd Hs]|[[entries Hd] Hs]]; rewrite Hd.
  - rewrite Hs. repeat split.
  - destruct (source g); [|congruence]. repeat split.
Qed.

(** C9 (amended). For every configured maximum in [2,15], the neighbour
    count handed to the reduction configuration never exceeds the
    configured maximum and lies in [2,15]; it equals the configured maximum
    whenever there are at least maximum + 2 documents, and otherwise only
    when the configured maximum is 2, the floor of line 136. *)
Theorem neighbor_count_within_slider (cfg : Config) (docs : list pystr) :
  2 <= n_neighbors_max cfg <= 15 ->
  n_neighbors (umap_model (make_topic_model cfg docs)) <= n_neighbors_max cfg
  /\ 2 <= n_neighbors (umap_model (make_topic_model cfg docs)) <= 15
  /\ (n_neighbors_max cfg + 2 <= len docs ->
      n_neighbors (umap_model (make_topic_model cfg docs)) = n_neighbors_max cfg)
  /\ (n_neighbors (umap_model (make_topic_model cfg docs)) = n_neighbors_max cfg
      <-> n_neighbors_max cfg = 2 \/ n_neighbors_max cfg + 2 <= len docs).
Proof.
  intros Hdom. cbn. unfold effective_n_neighbors. lia.
Qed.

(** C10. The trim-and-drop-empty step is idempotent; none of its results
    holds an empty or whitespace-only entry; the documents the tabs produce
    are fixed points of it; and so are the documents of every fit call on
    the page, none of which is empty or whitespace-only. *)
Theorem normalization_idempotent (cfg : Config) (inp : Inputs Value)
  (entries : list pystr) :
  strip_nonempty (strip_nonempty entries) = strip_nonempty entries
  /\ Forall (fun doc => doc <> [] /\ blank doc = false) (strip_nonempty entries)
  /\ match outcome (load_documents inp) with
     | Returned g =>
         match documents g with
         | Some docs => strip_nonempty docs = docs
         | None => True
         end
     | _ => True
     end
  /\ Forall fit_documents_normalized (trace (main cfg inp)).
Proof.
  split; [apply strip_nonempty_twice|].
  split.
  { eapply Forall_impl; [|apply strip_nonempty_entries].
    simpl. intros d [Ht [_ Hb]]. split; [|exact Hb].
    apply truthy_nonempty. exact Ht. }
  split; [|apply main_fit_documents].
  destruct (outcome (load_documents inp)) as [g| |e] eqn:Ho; try exact I.
  destruct (load_documents_globals (Figure:=Figure) (TopicInfo:=TopicInfo)
              to_str inp g Ho) as [[Hd _]|[[l Hd] _]]; rewrite Hd; [exact I|].
  apply strip_nonempty_twice.
Qed.

End Claims.

(** * The claims on concrete runs *)

Lemma neighbor_count_is_clamp_witness :
  2 <= n_neighbors_max default_config <= 15
  /\ n_neighbors (umap_model (make_topic_model default_config five_docs)) = 3.
Proof.
  split; [cbn; lia|].
  destruct (neighbor_count_is_clamp (Value:=pystr)
              (scripted_library None 3 None []) default_config five_docs
              ltac:(cbn; lia)) as [_ [H _]].
  rewrite H. reflexivity.
Defined.

Lemma fit_failure_halts_witness :
  fit_transform (scripted_library (Some (str "boom")) 3 None [])
    (make_topic_model default_config five_docs) five_docs = inl (str "boom")
  /\ filter is_error
       (trace (main (scripted_library (Some (str "boom")) 3 None []) text_to_str
                 default_config (manual_inputs five_lines true)))
     = [st (error (str "Error fitting model: boom"))]
  /\ outcome (main (scripted_library (Some (str "boom")) 3 None []) text_to_str
                default_config (manual_inputs five_lines true))
     = Stopped.
Proof.
  split; [reflexivity|].
  destruct (fit_failure_halts (scripted_library (Some (str "boom")) 3 None [])
              text_to_str default_config (manual_inputs five_lines true)
              five_globals five_docs (str "boom")
              eq_refl eq_refl ltac:(discriminate) eq_refl eq_refl)
    as [Herr [Hout _]].
  split; [exact Herr | exact Hout].
Defined.

Lemma chart_failure_isolated_witness :
  chart_result (scripted_library None 12 (Some Hierarchy) (str "too few topics"))
    tt 10 Hierarchy = inl (str "too few topics")
  /\ filter is_warning
       (trace (main (scripted_library None 12 (Some Hierarchy) (str "too few topics"))
                 text_to_str default_config (manual_inputs five_lines true)))
     = [st (warning (str "Could not generate hierarchy chart: too few topics"))]
  /\ count is_plotly_chart
       (trace (main (scripted_library None 12 (Some Hierarchy) (str "too few topics"))
                 text_to_str default_config (manual_inputs five_lines true)))
     = 3%nat.
Proof.
  split; [reflexivity|].
  destruct (chart_failure_isolated
              (scripted_library None 12 (Some Hierarchy) (str "too few topics"))
              text_to_str default_config (manual_inputs five_lines true)
              five_globals five_docs tt Hierarchy (str "too few topics")
              eq_refl eq_refl ltac:(discriminate) eq_refl eq_refl eq_refl eq_refl)
    as [_ [_ [Hcharts [Hwarn _]]]].
  - intros k' Hk'. exists k'. destruct k'; [reflexivity | congruence | reflexivity ..].
  - split; [exact Hwarn | exact Hcharts].
Defined.

Lemma barchart_limit_witness :
  fit_transform (scripted_library None 12 None [])
    (make_topic_model wide_config five_docs) five_docs = inr tt
  /\ filter is_barchart_call
       (trace (main (scripted_library None 12 None []) text_to_str
                 wide_config (manual_inputs five_lines true)))
     = [lib (call_visualize_barchart 11)].
Proof.
  split; [reflexivity|].
  exact (proj1 (barchart_limit (scripted_library None 12 None []) text_to_str
                  wide_config (manual_inputs five_lines true)
                  five_globals five_docs tt
                  eq_refl eq_refl ltac:(discriminate) eq_refl eq_refl)).
Defined.

(** The example of the specification, read off its words alone: the lines
    "a", "", "  b  " and "c" give the documents "a", "b" and "c". *)
Lemma example_text_documents :
  spec_manual_documents example_text [str "a"; str "b"; str "c"].
Proof.
  exists [str "a"; []; str "  b  "; str "c"]. split.
  - repeat split; [discriminate|].
    repeat constructor; vm_compute; intuition discriminate.
  - apply trimmed_keep; [exists [], []; repeat split | discriminate |].
    apply trimmed_drop; [exists [], []; repeat split |].
    apply trimmed_keep;
      [exists (str "  "), (str "  "); repeat split | discriminate |].
    apply trimmed_keep; [exists [], []; repeat split | discriminate |].
    constructor.
Qed.

(** The same for a column: the missing cell, the whitespace-only cell and
    the empty cell go, "x" stays and "  y " is trimmed. *)
Lemma mixed_column_documents :
  spec_csv_documents text_to_str mixed_column [str "x"; str "y"].
Proof.
  exists [str "x"; str "   "; []; str "  y "]. split.
  - repeat constructor.
  - apply trimmed_keep; [exists [], []; repeat split | discriminate |].
    apply trimmed_drop; [exists (str "   "), []; repeat split |].
    apply trimmed_drop; [exists [], []; repeat split |].
    apply trimmed_keep;
      [exists (str "  "), (str " "); repeat split | discriminate |].
    constructor.
Qed.

Lemma manual_documents_spec_witness :
  option_map document_set
    (returned (outcome (tab1 (Value:=pystr) (Figure:=ChartKind) (TopicInfo:=nat)
                          example_text no_globals)))
  = Some [str "a"; str "b"; str "c"].
Proof.
  destruct (manual_documents_spec (Value:=pystr) (Figure:=ChartKind) (TopicInfo:=nat)
              text_to_str example_text false)
    as [docs [Hset [_ [_ [_ Honly]]]]].
  rewrite Hset. f_equal. symmetry. apply Honly. exact example_text_documents.
Defined.

(** An empty text area is no input: the globals are left as they were. *)
Example manual_empty_example :
  outcome (tab1 (Value:=pystr) (Figure:=ChartKind) (TopicInfo:=nat) [] no_globals)
  = Returned no_globals.
Proof. reflexivity. Qed.

(** The column of the specification's own example. *)
Lemma example_column_documents :
  spec_csv_documents text_to_str example_column [str "x"; str "y"].
Proof.
  exists [str "x"; str "  y "]. split.
  - repeat constructor.
  - apply trimmed_keep; [exists [], []; repeat split | discriminate |].
    apply trimmed_keep;
      [exists (str "  "), (str " "); repeat split | discriminate |].
    constructor.
Qed.

Lemma csv_documents_spec_witness :
  getitem (df mixed_upload) (str "text") = inr mixed_column
  /\ outcome (tab2 (Figure:=ChartKind) (TopicInfo:=nat) text_to_str
                (Some mixed_upload) no_globals)
     = Returned {| documents := Some [str "x"; str "y"];
                   source := Some (str "csv") |}
  /\ getitem (df example_upload) (str "text") = inr example_column
  /\ outcome (tab2 (Figure:=ChartKind) (TopicInfo:=nat) text_to_str
                (Some example_upload) no_globals)
     = Returned {| documents := Some [str "x"; str "y"];
                   source := Some (str "csv") |}.
Proof.
  split; [reflexivity|].
  destruct (csv_documents_spec (Figure:=ChartKind) (TopicInfo:=nat) text_to_str
              mixed_upload (str "text") mixed_column no_globals [] false
              eq_refl ltac:(discriminate) eq_refl)
    as [docs [Htab [_ [_ Honly]]]].
  destruct (csv_documents_spec (Figure:=ChartKind) (TopicInfo:=nat) text_to_str
              example_upload (str "text") example_column no_globals [] false
              eq_refl ltac:(discriminate) eq_refl)
    as [docs' [Htab' [_ [_ Honly']]]].
  split; [|split; [reflexivity|]].
  - rewrite Htab, <- (Honly _ mixed_column_documents). reflexivity.
  - rewrite Htab', <- (Honly' _ example_column_documents). reflexivity.
Defined.

Lemma empty_documents_gate_witness :
  truthy_documents (Some (strip_nonempty (split newline (str "   ")))) = false
  /\ filter is_prompt
       (trace (main (scripted_library None 3 None []) text_to_str default_config
                 (manual_inputs "   " true)))
     = [st (warning (str "Please enter at least one valid document (minimum 3-5 recommended for better results)."))]
  /\ count is_button
       (trace (main (scripted_library None 3 None []) text_to_str default_config
                 (manual_inputs "   " true)))
     = 0%nat.
Proof.
  split; [reflexivity|].
  destruct (empty_documents_gate (scripted_library None 3 None []) text_to_str
              default_config (manual_inputs "   " true)
              {| documents := Some []; source := Some (str "manual") |}
              eq_refl eq_refl)
    as [Hbutton [_ [_ [Hprompt _]]]].
  split; [exact Hprompt | exact Hbutton].
Defined.

Lemma neighbor_count_within_slider_witness :
  2 <= n_neighbors_max default_config <= 15
  /\ n_neighbors_max default_config + 2 <= len (five_docs ++ five_docs)
  /\ n_neighbors (umap_model (make_topic_model default_config (five_docs ++ five_docs)))
     = 5.
Proof.
  split; [cbn; lia|]. split; [cbn; lia|].
  destruct (neighbor_count_within_slider default_config (five_docs ++ five_docs)
              ltac:(cbn; lia)) as [_ [_ [H _]]].
  exact (H ltac:(cbn; lia)).
Defined.

(** With the slider at 2 and a single document the count is the configured
    2 although there are fewer than 2 + 2 documents. *)
Lemma neighbor_count_equal_counterexample :
  2 <= n_neighbors_max narrow_config <= 15
  /\ n_neighbors (umap_model (make_topic_model narrow_config [str "one document"]))
     = n_neighbors_max narrow_config
  /\ ~ (n_neighbors_max narrow_config + 2 <= len [str "one document"]).
Proof.
  split; [cbn; lia|]. split; [reflexivity|]. cbn. lia.
Qed.

(** * Further properties of the normalization *)

(** X1. Every document the normalization keeps begins and ends with a
    character that is not whitespace, and is one of the entries with only
    whitespace removed before and after it. *)
Theorem documents_are_trimmed_entries (entries : list pystr) :
  Forall (fun doc =>
            isspace (hd newline doc) = false
            /\ isspace (last doc newline) = false
            /\ exists entry pre post,
                 In entry entries /\ entry = pre ++ doc ++ post
                 /\ blank pre = true /\ blank post = true)
         (strip_nonempty entries).
Proof.
  apply Forall_forall. intros doc Hdoc.
  destruct (in_strip_nonempty doc entries Hdoc) as [entry [Hentry [-> Ht]]].
  apply truthy_nonempty in Ht.
  split; [apply hd_clean; [apply strip_starts_clean | exact Ht]|].
  split; [apply last_clean; [apply strip_ends_clean | exact Ht]|].
  destruct (strip_decompose entry) as [pre [post [Hs [Hpre Hpost]]]].
  exists entry, pre, post. auto.
Qed.

(** X2. The normalization drops exactly the entries made of whitespace only
    (the empty one included) and trims the others: it keeps as many
    documents as there are entries with a non-whitespace character, and
    none at all exactly when every entry is whitespace only. *)
Theorem dropped_entries_are_blank (entries : list pystr) :
  strip_nonempty entries
  = List.map strip (filter (fun entry => negb (blank entry)) entries)
  /\ (strip_nonempty entries = [] <-> forallb blank entries = true).
Proof.
  split; [|apply strip_nonempty_nil_iff].
  induction entries as [|e rest IH]; simpl; [reflexivity|].
  rewrite truthy_strip_blank. destruct (blank e); simpl; now rewrite IH.
Qed.

(** X3. Nothing is deduplicated or merged: the documents of two texts typed
    one after the other, a line feed between them, are the documents of the
    first followed by the documents of the second. *)
Theorem documents_of_joined_texts (first second : pystr) :
  strip_nonempty (split newline (first ++ newline :: second))
  = strip_nonempty (split newline first) ++ strip_nonempty (split newline second).
Proof.
  rewrite split_app. apply strip_nonempty_app.
Qed.

(** X4. A typed text yields at most one document per line, that is at most
    one more than it has line feeds, and no document holds a line feed. *)
Theorem manual_documents_bounds (text : pystr) :
  (List.length (strip_nonempty (split newline text))
   <= S (count_occ N.eq_dec text newline))%nat
  /\ Forall (fun doc => ~ In newline doc) (strip_nonempty (split newline text)).
Proof.
  split; [|apply manual_documents_no_newline].
  rewrite <- split_length. apply strip_nonempty_length.
Qed.

(** X5. Typing the documents of a text back, one per line, gives the same
    documents again. *)
Theorem manual_documents_round_trip (text : pystr) :
  strip_nonempty
    (split newline (join newline (strip_nonempty (split newline text))))
  = strip_nonempty (split newline text).
Proof.
  destruct (strip_nonempty (split newline text)) as [|doc more] eqn:Hdocs.
  - reflexivity.
  - rewrite split_join.
    + rewrite <- Hdocs. apply strip_nonempty_twice.
    + discriminate.
    + rewrite <- Hdocs. apply manual_documents_no_newline.
Qed.

(** * Further properties of the page *)

Ltac analysis_stage_disjoint :=
  let el := fresh "el" in
  let c := fresh "c" in
  intros [el|c]; [destruct el as [ | | | | | | | | | [|] | | | | | ] | ];
  simpl; congruence.

Lemma truthy_documents_strip_nonempty entries :
  truthy_documents (Some (strip_nonempty entries)) = negb (forallb blank entries).
Proof.
  destruct (strip_nonempty entries) as [|doc more] eqn:Hdocs.
  - apply strip_nonempty_nil_iff in Hdocs. rewrite Hdocs. reflexivity.
  - destruct (forallb blank entries) eqn:Hb; [|reflexivity].
    apply strip_nonempty_nil_iff in Hb. congruence.
Qed.

Lemma isspace_newline : isspace newline = true.
Proof. reflexivity. Qed.

Lemma csv_entries_blank {Value} (to_str : Value -> pystr) (column : Series Value) :
  forallb blank (astype_str to_str (dropna column))
  = forallb (cell_blank to_str) column.
Proof.
  unfold astype_str.
  induction column as [|[v|] rest IH]; simpl; [reflexivity | now rewrite IH | exact IH].
Qed.

Lemma csv_documents_length {Value} (to_str : Value -> pystr) (column : Series Value) :
  List.length (strip_nonempty (astype_str to_str (dropna column)))
  = List.length (filter (fun cell => negb (cell_blank to_str cell)) column).
Proof.
  unfold astype_str.
  induction column as [|[v|] rest IH]; simpl; [reflexivity | | exact IH].
  rewrite truthy_strip_blank. destruct (blank (to_str v)); simpl; now rewrite IH.
Qed.

Lemma getitem_found {Value} (df : DataFrame Value) (name : pystr) :
  In name (columns df) ->
  exists column, getitem df name = inr column /\ In (name, column) df.
Proof.
  unfold columns. induction df as [|[n c] more IH]; simpl; [tauto|].
  unfold pystr_eqb. destruct (list_eq_dec N.eq_dec n name) as [->|Hn].
  - intros _. exists c. auto.
  - intros [Heq|Hin]; [congruence|].
    destruct (IH Hin) as [column [Hget Hcol]]. exists column. auto.
Qed.

Section Page.

Context {Value Model Figure TopicInfo : Type}.
Variable bertopic : Library Model Figure TopicInfo.
Variable to_str : Value -> pystr.

Local Abbreviation Event := (Event Value Figure TopicInfo).
Local Abbreviation tab1 :=
  (tab1 (Value:=Value) (Figure:=Figure) (TopicInfo:=TopicInfo)).
Local Abbreviation tab2 := (tab2 (Figure:=Figure) (TopicInfo:=TopicInfo) to_str).
Local Abbreviation load_documents :=
  (load_documents (Figure:=Figure) (TopicInfo:=TopicInfo) to_str).
Local Abbreviation main := (main bertopic to_str).
Local Abbreviation analysis := (analysis (Value:=Value) bertopic).
Local Abbreviation analysis_section := (analysis_section (Value:=Value) bertopic).
Local Abbreviation chart_block := (chart_block (Value:=Value) bertopic).
Local Abbreviation chart_event := (chart_event (Value:=Value) bertopic).

(** The tabs with a typed text and no upload. *)
Lemma load_documents_manual text clicked :
  outcome (load_documents (typed_inputs text None clicked))
  = Returned (if truthy text
              then {| documents := Some (strip_nonempty (split newline text));
                      source := Some (str "manual") |}
              else no_globals).
Proof.
  unfold load_documents, typed_inputs. cbn [user_input uploaded_file].
  pose proof (tab1_returns (Value:=Value) (Figure:=Figure) (TopicInfo:=TopicInfo)
                text {| documents := None; source := None |}) as H1.
  destruct (tab1 text _) as [events o]. simpl in H1. subst o. reflexivity.
Qed.

(** The upload tab on a column that is found. *)
Lemma tab2_selected upload name column g :
  column_name upload = Some name ->
  name <> [] ->
  getitem (df upload) name = inr column ->
  tab2 (Some upload) g
  = ([st (header (str "Upload CSV File"));
      st (file_uploader (str "Choose a CSV file"));
      st (write (str "Preview of uploaded file:"));
      st (dataframe (CsvPreview (head (df upload))));
      st (selectbox (str "Select the column containing free text:")
            (columns (df upload)));
      st (success (str "Loaded "
                   ++ str_of_nat (List.length
                                    (strip_nonempty (astype_str to_str (dropna column))))
                   ++ str " documents from '" ++ name ++ str "'"))],
     Returned {| documents := Some (strip_nonempty (astype_str to_str (dropna column)));
                 source := Some (str "csv") |}).
Proof.
  intros Hname Hne Hcol. apply truthy_nonempty in Hne.
  unfold tab2. rewrite Hname, Hne, Hcol. reflexivity.
Qed.

(** The tabs with an upload whose column is found, whatever is typed. *)
Lemma load_documents_csv text upload clicked name column :
  column_name upload = Some name ->
  name <> [] ->
  getitem (df upload) name = inr column ->
  load_documents (typed_inputs text (Some upload) clicked)
  = (trace (tab1 text no_globals)
     ++ trace (tab2 (Some upload) no_globals),
     Returned {| documents := Some (strip_nonempty (astype_str to_str (dropna column)));
                 source := Some (str "csv") |}).
Proof.
  intros Hname Hne Hcol.
  unfold load_documents, typed_inputs. cbn [user_input uploaded_file].
  pose proof (tab1_returns (Value:=Value) (Figure:=Figure) (TopicInfo:=TopicInfo)
                text no_globals) as H1.
  unfold no_globals in *.
  destruct (tab1 text _) as [events o]. simpl in H1. subst o.
  unfold bind. rewrite !(tab2_selected upload name column _ Hname Hne Hcol).
  reflexivity.
Qed.

Lemma tab2_never_stops uploaded g : outcome (tab2 uploaded g) <> Stopped.
Proof.
  unfold tab2. destruct uploaded as [upload|]; [|discriminate].
  destruct (column_name upload) as [name|]; [|discriminate].
  destruct (truthy name); [|discriminate].
  destruct (getitem (df upload) name); discriminate.
Qed.

Lemma load_documents_never_stops inp : outcome (load_documents inp) <> Stopped.
Proof.
  unfold load_documents.
  pose proof (tab1_returns (Value:=Value) (Figure:=Figure) (TopicInfo:=TopicInfo)
                (user_input inp) {| documents := None; source := None |}) as H1.
  destruct (tab1 _ _) as [events o]. simpl in H1. subst o.
  unfold bind. apply tab2_never_stops.
Qed.

(** The run of the whole script when the tabs raise. *)
Lemma main_load_raised cfg inp e :
  outcome (load_documents inp) = Raised e ->
  main cfg inp
  = (st (title (str "BERTopic The App"))
       :: st (write (str "This app demonstrates the use of BERTopic for topic modeling on free text data."))
       :: trace (load_documents inp),
     Raised e).
Proof.
  unfold main. destruct (load_documents inp) as [events o].
  simpl. intros ->. reflexivity.
Qed.

Lemma in_main_load cfg inp ev :
  In ev (trace (load_documents inp)) -> In ev (trace (main cfg inp)).
Proof.
  intros Hev. unfold main. destruct (load_documents inp) as [events o].
  simpl in Hev. destruct o; cbn; right; right; try exact Hev.
  apply in_or_app. left. exact Hev.
Qed.

Lemma analysis_stage cfg docs :
  Forall (fun ev : Event => is_analysis_stage ev = true) (trace (analysis cfg docs)).
Proof.
  destruct (fit_transform bertopic (make_topic_model cfg docs) docs) as [e|m] eqn:Hfit.
  - rewrite (analysis_fit_raises bertopic cfg docs e Hfit). repeat constructor.
  - rewrite (analysis_fitted bertopic cfg docs m Hfit).
    unfold trace, fst, fitted_page, chart_block.
    destruct (show_all_viz cfg);
      repeat (apply Forall_app; split); repeat constructor;
      try (destruct (chart_result bertopic m _ _); repeat constructor).
    all: destruct (chart_result bertopic m _ _); repeat constructor.
Qed.

Lemma filter_analysis (p : Event -> bool) cfg docs :
  (forall ev, is_analysis_stage ev = true -> p ev = false) ->
  filter p (trace (analysis cfg docs)) = [].
Proof.
  intros Hp. pose proof (analysis_stage cfg docs) as Hall.
  induction Hall as [|ev events Hev _ IH]; simpl; [reflexivity|].
  rewrite (Hp ev Hev). exact IH.
Qed.

(** The button is on the page exactly when documents are loaded. *)
Lemma filter_button_section cfg clicked g :
  filter is_button (trace (analysis_section cfg clicked g))
  = if truthy_documents (documents g) then [st (button (str "Start Analysis"))]
    else [].
Proof.
  destruct (documents g) as [[|doc more]|] eqn:Hd; simpl truthy_documents.
  - rewrite analysis_section_gated by (rewrite Hd; reflexivity).
    unfold empty_input_prompt. destruct (source g); reflexivity.
  - destruct clicked.
    + rewrite (analysis_section_clicked bertopic cfg g (doc :: more) Hd) by discriminate.
      unfold trace at 1, fst. cbn [filter is_button].
      rewrite filter_analysis by analysis_stage_disjoint. reflexivity.
    + rewrite (analysis_section_idle bertopic cfg g (doc :: more) Hd) by discriminate.
      reflexivity.
  - rewrite analysis_section_gated by (rewrite Hd; reflexivity).
    unfold empty_input_prompt. destruct (source g); reflexivity.
Qed.

(** The one fit call of the analysis. *)
Lemma analysis_fit_call cfg docs :
  filter is_fit_call (trace (analysis cfg docs))
  = [lib (call_fit_transform (make_topic_model cfg docs) docs)].
Proof.
  destruct (fit_transform bertopic (make_topic_model cfg docs) docs) as [e|m] eqn:Hfit.
  - rewrite (analysis_fit_raises bertopic cfg docs e Hfit). reflexivity.
  - rewrite (analysis_fitted bertopic cfg docs m Hfit).
    unfold trace, fst, fitted_page. rewrite !filter_app.
    destruct (show_all_viz cfg); rewrite ?filter_app;
      rewrite !(filter_chart_block bertopic is_fit_call)
        by (try reflexivity; intros []; reflexivity);
      reflexivity.
Qed.

End Page.

Section PageProperties.

Context {Value Model Figure TopicInfo : Type}.
Variable bertopic : Library Model Figure TopicInfo.
Variable to_str : Value -> pystr.

Local Abbreviation Event := (Event Value Figure TopicInfo).
Local Abbreviation load_documents :=
  (load_documents (Figure:=Figure) (TopicInfo:=TopicInfo) to_str).
Local Abbreviation main := (main bertopic to_str).
Local Abbreviation analysis := (analysis (Value:=Value) bertopic).
Local Abbreviation analysis_section := (analysis_section (Value:=Value) bertopic).
Local Abbreviation chart_event := (chart_event (Value:=Value) bertopic).

(** X6. With no upload, the analyze button is on the page exactly when the
    typed text holds a character that is not whitespace, whatever the
    sidebar says and whether or not the button was clicked. *)
Theorem button_iff_text_not_blank (cfg : Config) (text : pystr) (clicked : bool) :
  filter is_button (trace (main cfg (typed_inputs text None clicked)))
  = if blank text then [] else [st (button (str "Start Analysis"))].
Proof.
  pose proof (load_documents_manual to_str (Figure:=Figure) (TopicInfo:=TopicInfo)
                text clicked) as Hload.
  rewrite (filter_main bertopic to_str is_button cfg _ _
             ltac:(input_stage_disjoint) eq_refl Hload).
  rewrite filter_button_section.
  destruct text as [|c text]; [reflexivity|].
  cbn [truthy documents].
  rewrite truthy_documents_strip_nonempty, (blank_split newline _ isspace_newline).
  destruct (blank (c :: text)); reflexivity.
Qed.

(** X7. With an upload whose selected column is found, the analyze button is
    on the page exactly when some cell of the column is neither missing nor
    whitespace only; what is typed in the manual tab does not count. *)
Theorem button_iff_column_not_blank (cfg : Config) (text : pystr)
  (upload : Upload Value) (clicked : bool) (name : pystr) (column : Series Value) :
  column_name upload = Some name ->
  name <> [] ->
  getitem (df upload) name = inr column ->
  filter is_button (trace (main cfg (typed_inputs text (Some upload) clicked)))
  = if forallb (cell_blank to_str) column then []
    else [st (button (str "Start Analysis"))].
Proof.
  intros Hname Hne Hcol.
  pose proof (load_documents_csv (Figure:=Figure) (TopicInfo:=TopicInfo) to_str text upload clicked name column
                Hname Hne Hcol) as Hload.
  apply (f_equal outcome) in Hload. unfold outcome at 2, snd in Hload.
  rewrite (filter_main bertopic to_str is_button cfg _ _
             ltac:(input_stage_disjoint) eq_refl Hload).
  rewrite filter_button_section. cbn [documents].
  rewrite truthy_documents_strip_nonempty, csv_entries_blank.
  destruct (forallb (cell_blank to_str) column); reflexivity.
Qed.

(** X8. With an upload whose selected column is found, the page announces
    the number of documents loaded, which is the number of cells of the
    column that are neither missing nor whitespace only, at most the number
    of rows. *)
Theorem loaded_count_announced (cfg : Config) (text : pystr)
  (upload : Upload Value) (clicked : bool) (name : pystr) (column : Series Value) :
  column_name upload = Some name ->
  name <> [] ->
  getitem (df upload) name = inr column ->
  In (st (success (str "Loaded "
                   ++ str_of_nat (List.length
                                    (filter (fun cell => negb (cell_blank to_str cell))
                                       column))
                   ++ str " documents from '" ++ name ++ str "'")))
     (trace (main cfg (typed_inputs text (Some upload) clicked)))
  /\ (List.length (filter (fun cell => negb (cell_blank to_str cell)) column)
      <= List.length column)%nat.
Proof.
  intros Hname Hne Hcol. split; [|apply filter_length_le].
  apply in_main_load.
  rewrite (load_documents_csv (Figure:=Figure) (TopicInfo:=TopicInfo) to_str text upload clicked name column Hname Hne Hcol).
  unfold trace at 1, fst. apply in_or_app. right.
  rewrite (tab2_selected (Figure:=Figure) (TopicInfo:=TopicInfo) to_str upload name column _ Hname Hne Hcol).
  rewrite csv_documents_length. simpl. tauto.
Qed.

(** X9. A column name taken from the table's own columns is always found:
    the tabs end without a KeyError, and the column read is a column of the
    table under that name. *)
Theorem selected_column_is_found (inp : Inputs Value) (upload : Upload Value)
  (name : pystr) :
  uploaded_file inp = Some upload ->
  column_name upload = Some name ->
  In name (columns (df upload)) ->
  exists column g,
    getitem (df upload) name = inr column
    /\ In (name, column) (df upload)
    /\ outcome (load_documents inp) = Returned g.
Proof.
  intros Hup Hname Hin.
  destruct (getitem_found (df upload) name Hin) as [column [Hget Hcol]].
  exists column.
  assert (Hret : exists g, outcome (load_documents inp) = Returned g).
  { unfold load_documents.
    pose proof (tab1_returns (Value:=Value) (Figure:=Figure) (TopicInfo:=TopicInfo)
                  (user_input inp) {| documents := None; source := None |}) as H1.
    destruct (tab1 _ _) as [events o]. simpl in H1. subst o.
    unfold bind, outcome at 1, snd. rewrite Hup. unfold tab2.
    rewrite Hname. destruct (truthy name); [|eexists; reflexivity].
    rewrite Hget. eexists. reflexivity. }
  destruct Hret as [g Hg]. exists g. auto.
Qed.

(** X10. The fit is called exactly once when documents are loaded and the
    button is clicked, on the loaded documents and the configuration built
    from them; on every other rerun no library call is made at all. *)
Theorem fit_called_only_when_clicked (cfg : Config) (inp : Inputs Value) :
  match outcome (load_documents inp) with
  | Returned g =>
      if truthy_documents (documents g) && analyze_button inp
      then filter is_fit_call (trace (main cfg inp))
           = [lib (call_fit_transform (make_topic_model cfg (document_set g))
                     (document_set g))]
      else filter is_library_call (trace (main cfg inp)) = []
  | _ => filter is_library_call (trace (main cfg inp)) = []
  end.
Proof.
  destruct (outcome (load_documents inp)) as [g| |e] eqn:Ho.
  - destruct (documents g) as [[|doc more]|] eqn:Hd; simpl truthy_documents;
      cbn [andb].
    + rewrite (filter_main bertopic to_str _ cfg inp g) by side_condition.
      rewrite analysis_section_gated by (rewrite Hd; reflexivity).
      unfold empty_input_prompt. destruct (source g); reflexivity.
    + destruct (analyze_button inp) eqn:Hb.
      * rewrite (filter_main_clicked bertopic to_str _ cfg inp g (doc :: more))
          by first [side_condition | discriminate].
        unfold document_set. rewrite Hd. apply analysis_fit_call.
      * rewrite (filter_main bertopic to_str _ cfg inp g) by side_condition.
        rewrite Hb, (analysis_section_idle bertopic cfg g (doc :: more) Hd)
          by discriminate.
        reflexivity.
    + rewrite (filter_main bertopic to_str _ cfg inp g) by side_condition.
      rewrite analysis_section_gated by (rewrite Hd; reflexivity).
      unfold empty_input_prompt. destruct (source g); reflexivity.
  - exfalso. exact (load_documents_never_stops (Figure:=Figure) (TopicInfo:=TopicInfo) to_str inp Ho).
  - rewrite (main_load_raised bertopic to_str cfg inp e Ho).
    unfold trace at 1, fst. cbn [filter is_library_call].
    apply filter_input_stage; [input_stage_disjoint|].
    apply load_documents_input_stage.
Qed.

(** X11. After a successful fit every chart generator the page asks for is
    called exactly once, in page order, whether or not the ones before it
    raised: all four when all visualizations are enabled, the frequency
    chart alone otherwise. *)
Theorem chart_calls_in_order (cfg : Config) (inp : Inputs Value) (g : Globals)
  (docs : list pystr) (m : Model) :
  outcome (load_documents inp) = Returned g ->
  documents g = Some docs ->
  docs <> [] ->
  analyze_button inp = true ->
  fit_transform bertopic (make_topic_model cfg docs) docs = inr m ->
  filter is_chart_call (trace (main cfg inp))
  = List.map (fun k => lib (chart_call (top_n_limit bertopic cfg m) k))
      (charts_shown cfg).
Proof.
  intros Hg Hd Hne Hb Hfit.
  rewrite (filter_main_clicked bertopic to_str _ cfg inp g docs) by side_condition.
  rewrite (analysis_fitted bertopic cfg docs m Hfit).
  unfold trace, fst, fitted_page, chart_block, chart_result, charts_shown, top_n_limit.
  destruct (show_all_viz cfg);
    destruct (visualize_barchart bertopic m _); try reflexivity;
    destruct (visualize_hierarchy bertopic m), (visualize_heatmap bertopic m),
      (visualize_topics bertopic m); reflexivity.
Qed.

(** X12. After a successful fit, whatever each chart generator does, the
    page shows for every chart asked for either the chart or the warning of
    its block, in page order and nothing else of either kind; no error is
    shown, the closing message is on the page and the run reaches its end. *)
Theorem every_chart_or_its_warning (cfg : Config) (inp : Inputs Value) (g : Globals)
  (docs : list pystr) (m : Model) :
  outcome (load_documents inp) = Returned g ->
  documents g = Some docs ->
  docs <> [] ->
  analyze_button inp = true ->
  fit_transform bertopic (make_topic_model cfg docs) docs = inr m ->
  filter is_chart_or_warning (trace (main cfg inp))
  = List.map (chart_event m (top_n_limit bertopic cfg m)) (charts_shown cfg)
  /\ count is_error (trace (main cfg inp)) = 0%nat
  /\ In (st (success (str "BERTopic analysis complete!"))) (trace (main cfg inp))
  /\ outcome (main cfg inp) = Returned tt.
Proof.
  intros Hg Hd Hne Hb Hfit. unfold count.
  rewrite !(filter_main_clicked bertopic to_str _ cfg inp g docs)
    by (try unfold is_chart_or_warning; side_condition).
  split; [|split; [|split]].
  - rewrite (analysis_fitted bertopic cfg docs m Hfit).
    unfold trace, fst, fitted_page, chart_block, chart_event, chart_result,
      charts_shown, top_n_limit.
    destruct (show_all_viz cfg);
      destruct (visualize_barchart bertopic m _); try reflexivity;
      destruct (visualize_hierarchy bertopic m), (visualize_heatmap bertopic m),
        (visualize_topics bertopic m); reflexivity.
  - rewrite (analysis_fitted bertopic cfg docs m Hfit).
    unfold trace, fst, fitted_page. rewrite !filter_app.
    destruct (show_all_viz cfg); rewrite ?filter_app;
      rewrite !(filter_chart_block bertopic is_error)
        by (try reflexivity; intros []; reflexivity);
      reflexivity.
  - apply (in_main_clicked bertopic to_str cfg inp g docs _ Hg Hd Hne Hb).
    rewrite (analysis_fitted bertopic cfg docs m Hfit).
    unfold trace, fst, fitted_page.
    repeat (apply in_or_app; right). simpl. tauto.
  - rewrite (main_clicked bertopic to_str cfg inp g docs Hg Hd Hne Hb).
    rewrite (analysis_fitted bertopic cfg docs m Hfit). reflexivity.
Qed.

(** X13. How a rerun ends once the two tabs have run to their end (no
    upload, or an upload that parsed and whose selected column was found):
    it is halted by [st.stop()] exactly when the button was clicked on
    loaded documents and the fit raised an [Exception], and then one error
    is on the page; in every other case it reaches its end and no error is
    shown.  So an [Exception] of the fit or of a chart generator is always
    caught. *)
Theorem rerun_outcome (cfg : Config) (inp : Inputs Value) (g : Globals) :
  outcome (load_documents inp) = Returned g ->
  outcome (main cfg inp)
  = (if truthy_documents (documents g) && analyze_button inp
     then match fit_transform bertopic
                  (make_topic_model cfg (document_set g)) (document_set g) with
          | inl _ => Stopped
          | inr _ => Returned tt
          end
     else Returned tt)
  /\ count is_error (trace (main cfg inp))
     = (if truthy_documents (documents g) && analyze_button inp
        then match fit_transform bertopic
                     (make_topic_model cfg (document_set g)) (document_set g) with
             | inl _ => 1%nat
             | inr _ => 0%nat
             end
        else 0%nat).
Proof.
  intros Ho. unfold count.
  rewrite (filter_main bertopic to_str _ cfg inp g) by side_condition.
  rewrite (main_run bertopic to_str cfg inp g Ho). unfold outcome at 1, snd.
  destruct (documents g) as [[|doc more]|] eqn:Hd; simpl truthy_documents;
    cbn [andb].
  - rewrite analysis_section_gated by (rewrite Hd; reflexivity).
    unfold empty_input_prompt. destruct (source g); split; reflexivity.
  - destruct (analyze_button inp).
    + rewrite (analysis_section_clicked bertopic cfg g (doc :: more) Hd)
        by discriminate.
      unfold document_set. rewrite Hd.
      destruct (fit_transform bertopic (make_topic_model cfg (doc :: more))
                  (doc :: more)) as [e|m] eqn:Hfit.
      * rewrite (analysis_fit_raises bertopic cfg _ e Hfit). split; reflexivity.
      * rewrite (analysis_fitted bertopic cfg _ m Hfit).
        split; [reflexivity|].
        unfold trace, outcome, fst, snd, fitted_page.
        cbn [filter is_error app]. rewrite !filter_app.
        destruct (show_all_viz cfg); rewrite ?filter_app;
          rewrite !(filter_chart_block bertopic is_error)
            by (try reflexivity; intros []; reflexivity);
          reflexivity.
    + rewrite (analysis_section_idle bertopic cfg g (doc :: more) Hd)
        by discriminate.
      split; reflexivity.
  - rewrite analysis_section_gated by (rewrite Hd; reflexivity).
    unfold empty_input_prompt. destruct (source g); split; reflexivity.
Qed.

(** X14. With the slider in [2,15], the neighbour count respects the bound
    document count - 2 exactly when there are at least four documents, and
    stays below the document count exactly when there are at least three;
    adding documents never lowers it. *)
Theorem neighbor_count_small_sets (cfg : Config) (docs more : list pystr) :
  2 <= n_neighbors_max cfg <= 15 ->
  (n_neighbors (umap_model (make_topic_model cfg docs)) <= len docs - 2
   <-> 4 <= len docs)
  /\ (n_neighbors (umap_model (make_topic_model cfg docs)) < len docs
      <-> 3 <= len docs)
  /\ n_neighbors (umap_model (make_topic_model cfg docs))
     <= n_neighbors (umap_model (make_topic_model cfg (docs ++ more))).
Proof.
  intros Hdom. cbn. unfold effective_n_neighbors, len.
  rewrite length_app. lia.
Qed.

(** X15. With the slider in [5,20], the limit handed to the frequency chart
    after a successful fit lies between -1 and 20; it is the number of
    summary rows less one whenever the summary has at most six rows, the
    slider value whenever the summary has more rows than that value, and
    negative exactly when the summary is empty. *)
Theorem barchart_limit_edges (cfg : Config) (inp : Inputs Value) (g : Globals)
  (docs : list pystr) (m : Model) :
  outcome (load_documents inp) = Returned g ->
  documents g = Some docs ->
  docs <> [] ->
  analyze_button inp = true ->
  fit_transform bertopic (make_topic_model cfg docs) docs = inr m ->
  5 <= top_n_topics cfg <= 20 ->
  filter is_barchart_call (trace (main cfg inp))
  = [lib (call_visualize_barchart (top_n_limit bertopic cfg m))]
  /\ -1 <= top_n_limit bertopic cfg m <= 20
  /\ ((topic_info_rows bertopic (get_topic_info bertopic m) <= 6)%nat ->
      top_n_limit bertopic cfg m
      = Z.of_nat (topic_info_rows bertopic (get_topic_info bertopic m)) - 1)
  /\ (top_n_topics cfg
      < Z.of_nat (topic_info_rows bertopic (get_topic_info bertopic m)) ->
      top_n_limit bertopic cfg m = top_n_topics cfg)
  /\ (top_n_limit bertopic cfg m < 0
      <-> topic_info_rows bertopic (get_topic_info bertopic m) = 0%nat).
Proof.
  intros Hg Hd Hne Hb Hfit Hdom.
  split; [|unfold top_n_limit; lia].
  rewrite (filter_main_clicked bertopic to_str _ cfg inp g docs) by side_condition.
  rewrite (analysis_fitted bertopic cfg docs m Hfit).
  unfold trace, fst, fitted_page, chart_block, chart_result, top_n_limit.
  destruct (show_all_viz cfg);
    destruct (visualize_barchart bertopic m _); try reflexivity;
    destruct (visualize_hierarchy bertopic m), (visualize_heatmap bertopic m),
      (visualize_topics bertopic m); reflexivity.
Qed.

(** X16. With no upload and a text that holds no character other than
    whitespace, the only prompt on the page is the get-started note when
    the text area is empty, and the warning asking for a valid document
    when something was typed. *)
Theorem prompt_for_blank_text (cfg : Config) (text : pystr) (clicked : bool) :
  blank text = true ->
  filter is_prompt (trace (main cfg (typed_inputs text None clicked)))
  = [st (match text with
         | [] =>
             info (0x1F446%N :: str " Enter text manually or upload a CSV file to get started (minimum 3-5 documents recommended).")
         | _ :: _ =>
             warning (str "Please enter at least one valid document (minimum 3-5 recommended for better results).")
         end)].
Proof.
  intros Hblank.
  pose proof (load_documents_manual to_str (Figure:=Figure) (TopicInfo:=TopicInfo)
                text clicked) as Hload.
  rewrite (filter_main bertopic to_str is_prompt cfg _ _
             ltac:(input_stage_disjoint) eq_refl Hload).
  destruct text as [|c text]; [reflexivity|].
  cbn [truthy]. rewrite analysis_section_gated; [reflexivity|].
  cbn [documents].
  rewrite truthy_documents_strip_nonempty, (blank_split newline _ isspace_newline).
  rewrite Hblank. reflexivity.
Qed.

End PageProperties.

(** * The further properties on concrete runs *)

Lemma button_iff_column_not_blank_witness :
  getitem (df blank_upload) (str "text")
  = inr [None; Some (str "   "); Some []]
  /\ filter is_button
       (trace (main (scripted_library None 3 None []) text_to_str default_config
                 (typed_inputs (str five_lines) (Some blank_upload) true)))
     = [].
Proof.
  split; [reflexivity|].
  exact (button_iff_column_not_blank (scripted_library None 3 None []) text_to_str
           default_config (str five_lines) blank_upload true (str "text")
           [None; Some (str "   "); Some []]
           eq_refl ltac:(discriminate) eq_refl).
Defined.

Lemma loaded_count_announced_witness :
  getitem (df example_upload) (str "text") = inr example_column
  /\ In (st (success (str "Loaded 2 documents from 'text'")))
       (trace (main (scripted_library None 3 None []) text_to_str default_config
                 (typed_inputs [] (Some example_upload) false))).
Proof.
  split; [reflexivity|].
  exact (proj1 (loaded_count_announced (scripted_library None 3 None []) text_to_str
                  default_config [] example_upload false (str "text") example_column
                  eq_refl ltac:(discriminate) eq_refl)).
Defined.

Lemma selected_column_is_found_witness :
  In (str "text") (columns (df example_upload))
  /\ exists column g,
       getitem (df example_upload) (str "text") = inr column
       /\ In (str "text", column) (df example_upload)
       /\ outcome (load_documents (Figure:=ChartKind) (TopicInfo:=nat) text_to_str
                     (typed_inputs [] (Some example_upload) false))
          = Returned g.
Proof.
  assert (Hin : In (str "text") (columns (df example_upload)))
    by (right; left; reflexivity).
  split; [exact Hin|].
  exact (selected_column_is_found (Figure:=ChartKind) (TopicInfo:=nat) text_to_str
           (typed_inputs [] (Some example_upload) false) example_upload (str "text")
           eq_refl eq_refl Hin).
Defined.

Lemma chart_calls_in_order_witness :
  fit_transform (scripted_library None 12 (Some Hierarchy) (str "too few topics"))
    (make_topic_model default_config five_docs) five_docs = inr tt
  /\ filter is_chart_call
       (trace (main (scripted_library None 12 (Some Hierarchy) (str "too few topics"))
                 text_to_str default_config (manual_inputs five_lines true)))
     = [lib (call_visualize_barchart 10); lib call_visualize_hierarchy;
        lib call_visualize_heatmap; lib call_visualize_topics].
Proof.
  split; [reflexivity|].
  exact (chart_calls_in_order
           (scripted_library None 12 (Some Hierarchy) (str "too few topics"))
           text_to_str default_config (manual_inputs five_lines true)
           five_globals five_docs tt
           eq_refl eq_refl ltac:(discriminate) eq_refl eq_refl).
Defined.

Lemma every_chart_or_its_warning_witness :
  fit_transform (scripted_library None 12 (Some Heatmap) (str "singular"))
    (make_topic_model default_config five_docs) five_docs = inr tt
  /\ filter is_chart_or_warning
       (trace (main (scripted_library None 12 (Some Heatmap) (str "singular"))
                 text_to_str default_config (manual_inputs five_lines true)))
     = [st (plotly_chart Frequency); st (plotly_chart Hierarchy);
        st (warning (str "Could not generate heatmap: singular"));
        st (plotly_chart TopicWords)].
Proof.
  split; [reflexivity|].
  exact (proj1 (every_chart_or_its_warning
                  (scripted_library None 12 (Some Heatmap) (str "singular"))
                  text_to_str default_config (manual_inputs five_lines true)
                  five_globals five_docs tt
                  eq_refl eq_refl ltac:(discriminate) eq_refl eq_refl)).
Defined.

Lemma neighbor_count_small_sets_witness :
  2 <= n_neighbors_max default_config <= 15
  /\ n_neighbors (umap_model (make_topic_model default_config five_docs))
     <= n_neighbors (umap_model (make_topic_model default_config
                                   (five_docs ++ five_docs))).
Proof.
  split; [cbn; lia|].
  exact (proj2 (proj2 (neighbor_count_small_sets default_config five_docs five_docs
                         ltac:(cbn; lia)))).
Defined.

Lemma barchart_limit_edges_witness :
  5 <= top_n_topics default_config <= 20
  /\ filter is_barchart_call
       (trace (main (scripted_library None 3 None []) text_to_str default_config
                 (manual_inputs five_lines true)))
     = [lib (call_visualize_barchart 2)].
Proof.
  split; [cbn; lia|].
  exact (proj1 (barchart_limit_edges (scripted_library None 3 None []) text_to_str
                  default_config (manual_inputs five_lines true)
                  five_globals five_docs tt
                  eq_refl eq_refl ltac:(discriminate) eq_refl eq_refl
                  ltac:(cbn; lia))).
Defined.

Lemma prompt_for_blank_text_witness :
  blank (str "   ") = true
  /\ filter is_prompt
       (trace (main (scripted_library None 3 None []) text_to_str default_config
                 (typed_inputs (str "   ") None true)))
     = [st (warning (str "Please enter at least one valid document (minimum 3-5 recommended for better results)."))].
Proof.
  split; [reflexivity|].
  exact (prompt_for_blank_text (scripted_library None 3 None []) text_to_str
           default_config (str "   ") true eq_refl).
Defined.

Lemma rerun_outcome_witness :
  outcome (load_documents (Figure:=ChartKind) (TopicInfo:=nat) text_to_str
             (manual_inputs five_lines true))
  = Returned five_globals
  /\ outcome (main (scripted_library (Some (str "boom")) 3 None []) text_to_str
                default_config (manual_inputs five_lines true))
     = Stopped
  /\ count is_error
       (trace (main (scripted_library (Some (str "boom")) 3 None []) text_to_str
                 default_config (manual_inputs five_lines true)))
     = 1%nat.
Proof.
  split; [reflexivity|].
  exact (rerun_outcome (scripted_library (Some (str "boom")) 3 None []) text_to_str
           default_config (manual_inputs five_lines true) five_globals eq_refl).
Defined.
